(** * Vasu_Vue: the prediction and export handlers of [Public/app.py]

    A shallow embedding of the two JSON handlers of the Flask backend
    ([predict], [export_session]) and of the classifier
    [determine_bp_category], together with the part of Python's data model
    they rely on: JSON values, arbitrary-precision integers, binary64
    floats, the built-ins [len], [sum], [min], [max], [round] and the
    exceptions those raise.

    Integers are [Z]; floats are [spec_float] values handled with the
    binary64 instance of the IEEE 754 operations of [SpecFloat]; a JSON
    object is a [gmap] from strings to values; an uncaught exception is the
    [Raise] outcome of the [result] type. *)

From Stdlib Require Import ZArith Lia Floats.SpecFloat.
From stdpp Require Import gmap strings list fin_maps pretty.

Local Open Scope Z_scope.

(** ** Outcomes: a value, or an uncaught exception *)

Inductive exn : Type :=
  | TypeError
  | AttributeError
  | OverflowError
  | ZeroDivisionError.

Inductive result (A : Type) : Type :=
  | Ok (a : A)
  | Raise (e : exn).

Arguments Ok {A} a.
Arguments Raise {A} e.

#[global] Instance result_ret : MRet result := fun A a => Ok a.

#[global] Instance result_bind : MBind result := fun A B k m =>
  match m with
  | Ok a => k a
  | Raise e => Raise e
  end.

(** ** Binary64 floats *)

Module Float.

Definition prec : Z := 53.
Definition emax : Z := 1024.

Definition add : spec_float -> spec_float -> spec_float := SFadd prec emax.
Definition sub : spec_float -> spec_float -> spec_float := SFsub prec emax.
Definition mul : spec_float -> spec_float -> spec_float := SFmul prec emax.
Definition div : spec_float -> spec_float -> spec_float := SFdiv prec emax.

Definition is_nan (f : spec_float) : bool :=
  match f with S754_nan => true | _ => false end.

Definition is_infinite (f : spec_float) : bool :=
  match f with S754_infinity _ => true | _ => false end.

Definition is_zero (f : spec_float) : bool :=
  match f with S754_zero _ => true | _ => false end.

(** The float nearest to an integer (ties to even); an infinity when the
    integer is beyond the largest finite float. *)
Definition of_int (z : Z) : spec_float := binary_normalize prec emax z 0 false.

(** An integer as an unrounded mantissa with exponent 0, the form in
    which the division below takes its operands. *)
Definition exact_int (z : Z) : spec_float :=
  match z with
  | Z0 => S754_zero false
  | Zpos p => S754_finite false p 0
  | Zneg p => S754_finite true p 0
  end.

(** The correctly rounded quotient of two integers ([y] is not 0). *)
Definition div_int (x y : Z) : spec_float := div (exact_int x) (exact_int y).

(** Exact order between a float and an integer; [None] for a NaN. *)
Definition compare_int (f : spec_float) (z : Z) : option comparison :=
  match f with
  | S754_nan => None
  | S754_infinity s => Some (if s then Lt else Gt)
  | S754_zero _ => Some (0 ?= z)
  | S754_finite s m e =>
      let v := if s then Zneg m else Zpos m in
      Some (if 0 <=? e then v * 2 ^ e ?= z else v ?= z * 2 ^ (- e))
  end.

(** [n / 2^k] rounded to the nearest integer, ties to even. *)
Definition div_pow2_half_even (n k : Z) : Z :=
  let q := n / 2 ^ k in
  let r := n mod 2 ^ k in
  match 2 * r ?= 2 ^ k with
  | Lt => q
  | Gt => q + 1
  | Eq => if Z.even q then q else q + 1
  end.

(** [round(f, 1)]: the decimal with one fractional digit nearest to the
    exact value of [f] (ties to even), converted back to the nearest
    float; NaN, infinities and zeros round to themselves. *)
Definition round1 (f : spec_float) : spec_float :=
  match f with
  | S754_finite s m e =>
      let tenths :=
        if 0 <=? e then 10 * Zpos m * 2 ^ e
        else div_pow2_half_even (10 * Zpos m) (- e) in
      match tenths with
      | Zpos q => div (S754_finite s q 0) (exact_int 10)
      | _ => S754_zero s
      end
  | _ => f
  end.

(** The literals of the source. *)
Definition lit_0_3 : spec_float := S754_finite false 5404319552844595 (-54).
Definition lit_0_2 : spec_float := S754_finite false 7205759403792794 (-55).

End Float.

(** ** Python numbers *)

Inductive num : Type :=
  | NInt (z : Z)
  | NFloat (f : spec_float).

(** Conversion of an operand to float for mixed arithmetic. *)
Definition to_float (a : num) : result spec_float :=
  match a with
  | NFloat f => Ok f
  | NInt z =>
      let f := Float.of_int z in
      if Float.is_infinite f then Raise OverflowError else Ok f
  end.

Definition num_add (a b : num) : result num :=
  match a, b with
  | NInt x, NInt y => Ok (NInt (x + y))
  | _, _ => fa ← to_float a; fb ← to_float b; Ok (NFloat (Float.add fa fb))
  end.

Definition num_sub (a b : num) : result num :=
  match a, b with
  | NInt x, NInt y => Ok (NInt (x - y))
  | _, _ => fa ← to_float a; fb ← to_float b; Ok (NFloat (Float.sub fa fb))
  end.

Definition num_mul (a b : num) : result num :=
  match a, b with
  | NInt x, NInt y => Ok (NInt (x * y))
  | _, _ => fa ← to_float a; fb ← to_float b; Ok (NFloat (Float.mul fa fb))
  end.

(** True division [a / b]: always a float. *)
Definition num_truediv (a b : num) : result num :=
  match a, b with
  | NInt x, NInt y =>
      if y =? 0 then Raise ZeroDivisionError
      else
        let q := Float.div_int x y in
        if Float.is_infinite q then Raise OverflowError else Ok (NFloat q)
  | _, _ =>
      fa ← to_float a;
      fb ← to_float b;
      if Float.is_zero fb then Raise ZeroDivisionError
      else Ok (NFloat (Float.div fa fb))
  end.

(** The order of two numbers; [None] when a NaN is involved. *)
Definition num_compare (a b : num) : option comparison :=
  match a, b with
  | NInt x, NInt y => Some (x ?= y)
  | NFloat f, NFloat g => SFcompare f g
  | NFloat f, NInt y => Float.compare_int f y
  | NInt x, NFloat g => CompOpp <$> Float.compare_int g x
  end.

Definition num_ltb (a b : num) : bool :=
  match num_compare a b with Some Lt => true | _ => false end.
Definition num_leb (a b : num) : bool :=
  match num_compare a b with Some (Lt | Eq) => true | _ => false end.
Definition num_gtb (a b : num) : bool :=
  match num_compare a b with Some Gt => true | _ => false end.
Definition num_geb (a b : num) : bool :=
  match num_compare a b with Some (Gt | Eq) => true | _ => false end.
Definition num_eqb (a b : num) : bool :=
  match num_compare a b with Some Eq => true | _ => false end.

Definition num_max (a b : num) : num := if num_gtb b a then b else a.
Definition num_min (a b : num) : num := if num_ltb b a then b else a.

(** ** JSON values as Python objects *)

#[warnings="-register-all"]
Inductive value : Type :=
  | VNone
  | VBool (b : bool)
  | VInt (z : Z)
  | VFloat (f : spec_float)
  | VStr (s : string)
  | VList (l : list value)
  | VDict (d : gmap string value).

Definition of_num (a : num) : value :=
  match a with
  | NInt z => VInt z
  | NFloat f => VFloat f
  end.

(** The numeric reading of a value; [bool] is a subtype of [int]. *)
Definition as_num (v : value) : option num :=
  match v with
  | VBool b => Some (NInt (Z.b2z b))
  | VInt z => Some (NInt z)
  | VFloat f => Some (NFloat f)
  | _ => None
  end.

Definition is_none (v : value) : bool :=
  match v with VNone => true | _ => false end.

(** [d.get(key, dflt)] *)
Definition dict_get (d : gmap string value) (key : string) (dflt : value) : value :=
  default dflt (d !! key).

(** [len(v)]; a string is taken as its sequence of characters. *)
Definition py_len (v : value) : result Z :=
  match v with
  | VStr s => Ok (Z.of_nat (String.length s))
  | VList l => Ok (Z.of_nat (length l))
  | VDict d => Ok (Z.of_nat (size d))
  | _ => Raise TypeError
  end.

(** One step of [sum]: [acc + x] with [acc] a number. *)
Definition sum_step (acc : result num) (x : value) : result num :=
  a ← acc;
  match as_num x with
  | Some b => num_add a b
  | None => Raise TypeError
  end.

(** [sum(v)]: the items are added from left to right, starting from the
    integer 0, each addition rounding as [+] does. The items of a string
    are strings and those of a dict are its keys, so a non-empty one fails
    at the first addition. *)
Definition py_sum (v : value) : result num :=
  match v with
  | VList l => foldl sum_step (Ok (NInt 0)) l
  | VStr s => if decide (s = "") then Ok (NInt 0) else Raise TypeError
  | VDict d => if decide (d = ∅) then Ok (NInt 0) else Raise TypeError
  | _ => Raise TypeError
  end.

(** Ordering comparisons. Every comparison of this program has a number on
    one side, and then a non-number on the other side is a [TypeError]. *)
Definition py_cmp (test : num -> num -> bool) (v w : value) : result bool :=
  match as_num v, as_num w with
  | Some a, Some b => Ok (test a b)
  | _, _ => Raise TypeError
  end.

Definition py_lt : value -> value -> result bool := py_cmp num_ltb.
Definition py_le : value -> value -> result bool := py_cmp num_leb.
Definition py_ge : value -> value -> result bool := py_cmp num_geb.

(** [a and b], [a or b] on tests: the right operand is evaluated only when
    the left one does not decide. *)
Definition and_then (a b : result bool) : result bool :=
  x ← a; if x : bool then b else Ok false.
Definition or_else (a b : result bool) : result bool :=
  x ← a; if x : bool then Ok true else b.

Infix "&&&" := and_then (at level 40, left associativity).
Infix "|||" := or_else (at level 50, left associativity).

(** [round(v, 1)]: an integer is returned as it is, a float is rounded. *)
Definition py_round1 (v : value) : result value :=
  match v with
  | VBool b => Ok (VInt (Z.b2z b))
  | VInt z => Ok (VInt z)
  | VFloat f => Ok (VFloat (Float.round1 f))
  | _ => Raise TypeError
  end.

(** ** The classifier *)

Definition determine_bp_category (systolic diastolic : value) : result string :=
  c ← py_lt systolic (VInt 120) &&& py_lt diastolic (VInt 80);
  if c : bool then Ok "Normal" else
  c ← py_le (VInt 120) systolic &&& py_lt systolic (VInt 130)
        &&& py_lt diastolic (VInt 80);
  if c : bool then Ok "Elevated" else
  c ← (py_le (VInt 130) systolic &&& py_lt systolic (VInt 140))
        ||| (py_le (VInt 80) diastolic &&& py_lt diastolic (VInt 90));
  if c : bool then Ok "Hypertension Stage 1" else
  c ← py_ge systolic (VInt 140) ||| py_ge diastolic (VInt 90);
  if c : bool then Ok "Hypertension Stage 2" else
  Ok "Unknown".

(** ** The handlers *)

Record response : Type := Response { status : Z; body : gmap string value }.

(** [jsonify(d)] answers with status 200; [jsonify(d), code] with [code]. *)
Definition jsonify (d : gmap string value) : response := Response 200 d.
Definition with_status (r : response) (code : Z) : response :=
  Response code (body r).

(** [sum(signal) / len(signal)] *)
Definition mean_signal (signal : value) : result num :=
  total ← py_sum signal;
  n ← py_len signal;
  num_truediv total (NInt n).

(** [min(hi, max(lo, base + (mean_signal - 128) * slope))], the shape of
    both mock estimates. *)
Definition mock_bp (hi lo base : Z) (slope : spec_float) (mean : num)
  : result num :=
  centred ← num_sub mean (NInt 128);
  scaled ← num_mul centred (NFloat slope);
  raw ← num_add (NInt base) scaled;
  Ok (num_min (NInt hi) (num_max (NInt lo) raw)).

(** The first part of [predict] (up to the second early return): either a
    response returned at once, or the pair [(systolic, diastolic)]. *)
Definition predict_readings (data : value) : result (response + value * value) :=
  match data with
  | VDict d =>
      match d !! "signal" with
      | Some _ =>
          let signal := dict_get d "signal" (VList []) in
          let emotion := dict_get d "emotion" (VStr "neutral") in
          n ← py_len signal;
          if 100 <=? n then
            mean ← mean_signal signal;
            systolic ← mock_bp 160 90 120 Float.lit_0_3 mean;
            diastolic ← mock_bp 100 60 80 Float.lit_0_2 mean;
            Ok (inr (of_num systolic, of_num diastolic))
          else
            Ok (inl (with_status
                       (jsonify {[ "error" := VStr "Insufficient signal data" ]})
                       400))
      | None =>
          let systolic := dict_get d "systolic" VNone in
          let diastolic := dict_get d "diastolic" VNone in
          if is_none systolic || is_none diastolic then
            Ok (inl (with_status (jsonify {[ "error" := VStr "Invalid input" ]}) 400))
          else
            Ok (inr (systolic, diastolic))
      end
  | VList _ | VStr _ => Raise AttributeError
  | _ => Raise TypeError
  end.

(** The second part of [predict]: classification and the 200 response. *)
Definition predict_respond (systolic diastolic : value) : result response :=
  category ← determine_bp_category systolic diastolic;
  rounded_systolic ← py_round1 systolic;
  rounded_diastolic ← py_round1 diastolic;
  let result : gmap string value :=
    {[ "systolic" := rounded_systolic;
       "diastolic" := rounded_diastolic;
       "category" := VStr category;
       "success" := VBool true ]} in
  Ok (jsonify result).

Definition predict (data : value) : result response :=
  r ← predict_readings data;
  match r with
  | inl early => Ok early
  | inr (systolic, diastolic) => predict_respond systolic diastolic
  end.

(** [export_session]: the line printed on standard output and the
    response. *)
Definition export_session (data : value) : result (string * response) :=
  match data with
  | VDict d =>
      n ← py_len (dict_get d "samples" (VList []));
      let line := "Session exported: " +:+ pretty n +:+ " samples" in
      Ok (line,
          jsonify {[ "success" := VBool true;
                     "message" := VStr "Session data exported successfully" ]})
  | _ => Raise AttributeError
  end.

(** ** The vocabulary of the specification *)

(** [clamp(x, lo, hi)]: [x] when it lies strictly between the bounds, the
    upper bound when it is above [lo] but not below [hi], the lower bound
    otherwise. *)
Definition clamp (x lo hi : num) : num :=
  if num_gtb x lo then (if num_ltb x hi then x else hi) else lo.

(** [base + (mean - 128) * slope] *)
Definition linear_estimate (base : Z) (slope : spec_float) (mean : num)
  : result num :=
  centred ← num_sub mean (NInt 128);
  scaled ← num_mul centred (NFloat slope);
  num_add (NInt base) scaled.

(** [lo <= x <= hi] *)
Definition in_range (x : num) (lo hi : Z) : bool :=
  num_leb (NInt lo) x && num_leb x (NInt hi).

(** The classification rules as an ordered table of tests and labels. *)
Definition category_rules (systolic diastolic : num) : list (bool * string) :=
  [ (num_ltb systolic (NInt 120) && num_ltb diastolic (NInt 80),
     "Normal");
    (num_leb (NInt 120) systolic && num_ltb systolic (NInt 130)
       && num_ltb diastolic (NInt 80),
     "Elevated");
    (num_leb (NInt 130) systolic && num_ltb systolic (NInt 140)
       || num_leb (NInt 80) diastolic && num_ltb diastolic (NInt 90),
     "Hypertension Stage 1");
    (num_geb systolic (NInt 140) || num_geb diastolic (NInt 90),
     "Hypertension Stage 2") ].

(** The label of the first rule whose test holds. *)
Fixpoint first_match (rules : list (bool * string)) (otherwise : string) : string :=
  match rules with
  | [] => otherwise
  | (test, label) :: rest => if test then label else first_match rest otherwise
  end.

Definition category_of (systolic diastolic : num) : string :=
  first_match (category_rules systolic diastolic) "Unknown".

(** A value on which [len] is defined. *)
Definition sized (v : value) : bool :=
  match v with
  | VStr _ | VList _ | VDict _ => true
  | _ => false
  end.

Definition is_float (v : value) : bool :=
  match v with VFloat _ => true | _ => false end.

(** A number that is not a NaN. *)
Definition ordered (a : num) : bool :=
  match a with
  | NFloat f => negb (Float.is_nan f)
  | NInt _ => true
  end.

(** The 200 response of [predict]. *)
Definition prediction (systolic diastolic : value) (category : string) : response :=
  Response 200
    {[ "systolic" := systolic;
       "diastolic" := diastolic;
       "category" := VStr category;
       "success" := VBool true ]}.

(** The 400 response carrying an error message. *)
Definition invalid_input (message : string) : response :=
  Response 400 {[ "error" := VStr message ]}.

(** A request that passes the validation of its branch: a signal of at
    least 100 items, or else both readings present and not [None]. *)
Definition passes_validation (d : gmap string value) : Prop :=
  match d !! "signal" with
  | Some signal => exists n : Z, py_len signal = Ok n /\ 100 <= n
  | None =>
      is_none (dict_get d "systolic" VNone) = false
      /\ is_none (dict_get d "diastolic" VNone) = false
  end.

(** A request whose readings are numbers: the mean of the signal can be
    computed, or else both legacy readings are numbers. *)
Definition numeric_readings (d : gmap string value) : Prop :=
  match d !! "signal" with
  | Some signal => exists mean : num, mean_signal signal = Ok mean
  | None =>
      is_Some (as_num (dict_get d "systolic" VNone))
      /\ is_Some (as_num (dict_get d "diastolic" VNone))
  end.

(** ** Sample requests *)

(** A legacy request carrying integer readings. *)
Definition legacy_request (systolic diastolic : Z) : value :=
  VDict {[ "systolic" := VInt systolic; "diastolic" := VInt diastolic ]}.

(** A signal request: [count] copies of one sample. *)
Definition constant_signal (count : nat) (sample : value) : gmap string value :=
  {[ "signal" := VList (replicate count sample) ]}.

(** ** Vocabulary of the further properties *)

(** The floats nearest to [q / 10] for [q] from [10 * lo] to [10 * hi] all
    lie in [[lo, hi]]. *)
Definition tenths_in_range (lo hi : Z) : bool :=
  forallb (fun q => in_range (NFloat (Float.div_int q 10)) lo hi)
    (seqZ (10 * lo) (10 * (hi - lo) + 1)).

(** A reading with one decimal between [lo] and [hi]: one of the two
    integer bounds, or the float nearest to [q / 10] for an integer [q]. *)
Definition one_decimal (lo hi : Z) (v : value) : Prop :=
  v = VInt lo \/ v = VInt hi
  \/ exists q : Z, 10 * lo <= q <= 10 * hi /\ v = VFloat (Float.div_int q 10).

Definition int_signal (samples : list Z) : value := VList (VInt <$> samples).

(** A sample that is a float, a boolean or an integer below [2^64] in
    absolute value. *)
Definition plain_number (v : value) : bool :=
  match v with
  | VFloat _ | VBool _ => true
  | VInt z => Z.abs z <? 2 ^ 64
  | _ => false
  end.

(** An accumulator of [sum] that is a float, or an integer of absolute
    value at most [bound]. *)
Definition within (bound : Z) (acc : num) : Prop :=
  match acc with
  | NInt a => Z.abs a <= bound
  | NFloat _ => True
  end.

(** [lo <= x < hi] *)
Definition in_band (x : num) (lo hi : Z) : bool :=
  num_leb (NInt lo) x && num_ltb x (NInt hi).

(** ** Order on numbers *)

Section Order.

Lemma num_compare_int_l (z : Z) (a : num) :
  num_compare (NInt z) a = CompOpp <$> num_compare a (NInt z).
Proof.
  destruct a as [y|f]; simpl.
  - by rewrite Z.compare_antisym.
  - done.
Qed.

Lemma num_compare_ordered (a : num) (z : Z) :
  ordered a = true -> is_Some (num_compare a (NInt z)).
Proof.
  destruct a as [y|[s|s| |s m e]]; simpl; intros H; try done; eauto.
Qed.

Lemma num_compare_unordered (a : num) (z : Z) :
  ordered a = false -> num_compare a (NInt z) = None.
Proof. destruct a as [y|[s|s| |s m e]]; simpl; intros H; done. Qed.

Lemma num_leb_ordered_l (z : Z) (a : num) :
  num_leb (NInt z) a = true -> ordered a = true.
Proof.
  unfold num_leb. rewrite num_compare_int_l.
  destruct (ordered a) eqn:Ho; [done|].
  by rewrite (num_compare_unordered a z Ho).
Qed.

Lemma num_leb_int_l (z : Z) (a : num) : num_leb (NInt z) a = num_geb a (NInt z).
Proof.
  unfold num_leb, num_geb. rewrite num_compare_int_l.
  by destruct (num_compare a (NInt z)) as [[]|].
Qed.

Lemma num_ltb_int_l (z : Z) (a : num) : num_ltb (NInt z) a = num_gtb a (NInt z).
Proof.
  unfold num_ltb, num_gtb. rewrite num_compare_int_l.
  by destruct (num_compare a (NInt z)) as [[]|].
Qed.

(** On an ordered number, "not below" is "at or above". *)
Lemma num_geb_ordered (a : num) (z : Z) :
  ordered a = true -> num_geb a (NInt z) = negb (num_ltb a (NInt z)).
Proof.
  intros Ho. unfold num_geb, num_ltb.
  destruct (num_compare_ordered a z Ho) as [c ->]. by destruct c.
Qed.

Lemma num_ltb_leb (a b : num) : num_ltb a b = true -> num_leb a b = true.
Proof. unfold num_ltb, num_leb. by destruct (num_compare a b) as [[]|]. Qed.

Lemma num_gtb_geb (a b : num) : num_gtb a b = true -> num_geb a b = true.
Proof. unfold num_gtb, num_geb. by destruct (num_compare a b) as [[]|]. Qed.

End Order.

(** ** The classifier *)

Section Classifier.

Lemma as_num_of_num (a : num) : as_num (of_num a) = Some a.
Proof. by destruct a. Qed.

Lemma py_cmp_num (test : num -> num -> bool) (v w : value) (a b : num) :
  as_num v = Some a -> as_num w = Some b -> py_cmp test v w = Ok (test a b).
Proof. unfold py_cmp. by intros -> ->. Qed.

(** On numbers the classifier raises nothing and follows the rule table. *)
Lemma determine_bp_category_num (vs vd : value) (s d : num) :
  as_num vs = Some s -> as_num vd = Some d ->
  determine_bp_category vs vd = Ok (category_of s d).
Proof.
  intros Hs Hd.
  unfold determine_bp_category, category_of, category_rules, py_lt, py_le, py_ge.
  rewrite !(py_cmp_num _ vs _ s _ Hs) by done.
  rewrite !(py_cmp_num _ _ vs _ s) by done.
  rewrite !(py_cmp_num _ vd _ d _ Hd) by done.
  rewrite !(py_cmp_num _ _ vd _ d) by done.
  simpl.
  destruct (num_ltb s (NInt 120)), (num_ltb d (NInt 80)),
    (num_leb (NInt 120) s), (num_ltb s (NInt 130)),
    (num_leb (NInt 130) s), (num_ltb s (NInt 140)),
    (num_leb (NInt 80) d), (num_ltb d (NInt 90)),
    (num_geb s (NInt 140)), (num_geb d (NInt 90)); reflexivity.
Qed.

(** Two numbers that are not NaN always fall under one of the four rules. *)
Lemma category_of_ordered (s d : num) :
  ordered s = true -> ordered d = true ->
  category_of s d = "Normal" \/ category_of s d = "Elevated"
  \/ category_of s d = "Hypertension Stage 1"
  \/ category_of s d = "Hypertension Stage 2".
Proof.
  intros Hs Hd. unfold category_of, category_rules.
  rewrite !num_leb_int_l, !num_geb_ordered by done. simpl.
  destruct (num_ltb s (NInt 120)), (num_ltb s (NInt 130)),
    (num_ltb s (NInt 140)), (num_ltb d (NInt 80)), (num_ltb d (NInt 90));
    simpl; auto.
Qed.

(** A NaN reading falls through every rule. *)
Example category_of_nan : category_of (NFloat S754_nan) (NInt 70) = "Unknown".
Proof. reflexivity. Qed.

End Classifier.

(** C2. For every pair of numbers the classifier returns the label of the
    first rule that holds, the rules being tried in the order Normal
    ([systolic < 120] and [diastolic < 80]), Elevated
    ([120 <= systolic < 130] and [diastolic < 80]), Hypertension Stage 1
    ([130 <= systolic < 140] or [80 <= diastolic < 90]), Hypertension Stage 2
    ([systolic >= 140] or [diastolic >= 90]), and Unknown when none holds. *)
Theorem classification_first_match (systolic diastolic : num) :
  determine_bp_category (of_num systolic) (of_num diastolic)
  = Ok (first_match
          [ (num_ltb systolic (NInt 120) && num_ltb diastolic (NInt 80),
             "Normal");
            (num_leb (NInt 120) systolic && num_ltb systolic (NInt 130)
               && num_ltb diastolic (NInt 80),
             "Elevated");
            (num_leb (NInt 130) systolic && num_ltb systolic (NInt 140)
               || num_leb (NInt 80) diastolic && num_ltb diastolic (NInt 90),
             "Hypertension Stage 1");
            (num_geb systolic (NInt 140) || num_geb diastolic (NInt 90),
             "Hypertension Stage 2") ]
          "Unknown").
Proof.
  apply (determine_bp_category_num _ _ systolic diastolic); apply as_num_of_num.
Qed.

(** C6. The four legacy test inputs: (118, 75) is Normal, (125, 78) is
    Elevated, (135, 85) is Hypertension Stage 1 and (145, 95) is
    Hypertension Stage 2, both for the classifier alone and in the response
    of the endpoint. *)
Theorem legacy_test_inputs :
  (determine_bp_category (VInt 118) (VInt 75) = Ok "Normal"
   /\ predict (legacy_request 118 75)
      = Ok (prediction (VInt 118) (VInt 75) "Normal"))
  /\ (determine_bp_category (VInt 125) (VInt 78) = Ok "Elevated"
      /\ predict (legacy_request 125 78)
         = Ok (prediction (VInt 125) (VInt 78) "Elevated"))
  /\ (determine_bp_category (VInt 135) (VInt 85) = Ok "Hypertension Stage 1"
      /\ predict (legacy_request 135 85)
         = Ok (prediction (VInt 135) (VInt 85) "Hypertension Stage 1"))
  /\ (determine_bp_category (VInt 145) (VInt 95) = Ok "Hypertension Stage 2"
      /\ predict (legacy_request 145 95)
         = Ok (prediction (VInt 145) (VInt 95) "Hypertension Stage 2")).
Proof. repeat split; vm_compute; reflexivity. Qed.

(** C9. When systolic lies in [90, 160] and diastolic in [60, 100], the
    classifier returns one of the four named categories and never
    Unknown. *)
Theorem clamped_readings_never_unknown (systolic diastolic : num) :
  in_range systolic 90 160 = true ->
  in_range diastolic 60 100 = true ->
  exists category : string,
    determine_bp_category (of_num systolic) (of_num diastolic) = Ok category
    /\ category <> "Unknown"
    /\ (category = "Normal" \/ category = "Elevated"
        \/ category = "Hypertension Stage 1"
        \/ category = "Hypertension Stage 2").
Proof.
  unfold in_range. intros [Hs _]%andb_prop [Hd _]%andb_prop.
  apply num_leb_ordered_l in Hs, Hd.
  exists (category_of systolic diastolic). split.
  - apply determine_bp_category_num; apply as_num_of_num.
  - destruct (category_of_ordered systolic diastolic Hs Hd) as [->|[->|[->| ->]]];
      split; auto; discriminate.
Qed.

Lemma clamped_readings_never_unknown_witness :
  exists category : string,
    determine_bp_category (VFloat (Float.of_int 120)) (VInt 80) = Ok category
    /\ category <> "Unknown"
    /\ (category = "Normal" \/ category = "Elevated"
        \/ category = "Hypertension Stage 1"
        \/ category = "Hypertension Stage 2").
Proof.
  apply (clamped_readings_never_unknown (NFloat (Float.of_int 120)) (NInt 80));
    reflexivity.
Defined.

(** ** Floats *)

Section Floats.

Lemma iter_xO_pow2 (m d : positive) :
  Zpos (Pos.iter xO m d) = Zpos m * 2 ^ Zpos d.
Proof.
  induction d as [|d IH] using Pos.peano_ind.
  - simpl. lia.
  - rewrite Pos.iter_succ, Pos2Z.inj_xO, IH, Pos2Z.inj_succ, Z.pow_succ_r by lia.
    lia.
Qed.

(** Aligning a mantissa to a smaller exponent keeps the value. *)
Lemma shl_align_value (m : positive) (e e' : Z) :
  e' <= e -> Zpos (fst (shl_align m e e')) = Zpos m * 2 ^ (e - e').
Proof.
  intros Hle. unfold shl_align.
  destruct (e' - e) as [|p|p] eqn:Hd.
  - replace (e - e') with 0 by lia. simpl. lia.
  - lia.
  - simpl fst. rewrite iter_xO_pow2. f_equal. f_equal. lia.
Qed.

(** A float that compares equal to the integer 128 is at distance 0.0
    from the float 128.0, whatever its mantissa and exponent. *)
Lemma sub_eq_128 (f : spec_float) :
  Float.compare_int f 128 = Some Eq ->
  Float.sub f (Float.of_int 128) = S754_zero false.
Proof.
  destruct f as [s|s| |s m e]; try done.
  - destruct s; done.
  - intros Hcmp. injection Hcmp as Hcmp.
    change (Float.of_int 128) with (S754_finite false 4503599627370496 (-45)).
    unfold Float.sub, SFsub.
    assert (Z.min e (-45) <= e) as H1 by lia.
    assert (Z.min e (-45) <= -45) as H2 by lia.
    rewrite (shl_align_value m e _ H1), (shl_align_value _ (-45) _ H2).
    assert (s = false /\ Zpos m * 2 ^ (e - Z.min e (-45))
                         = 4503599627370496 * 2 ^ (-45 - Z.min e (-45))) as [-> Hv].
    { destruct (0 <=? e) eqn:Hsign.
      - apply Z.leb_le in Hsign. apply Z.compare_eq in Hcmp.
        assert (0 < 2 ^ e) by (apply Z.pow_pos_nonneg; lia).
        destruct s; [lia|]. split; [done|].
        rewrite Z.min_r by lia.
        replace (e - -45) with (e + 45) by lia.
        rewrite Z.pow_add_r by lia. replace (-45 - -45) with 0 by lia.
        change (2 ^ 45) with 35184372088832. change (2 ^ 0) with 1. lia.
      - apply Z.leb_gt in Hsign. apply Z.compare_eq in Hcmp.
        destruct s; [lia|]. split; [done|].
        destruct (Z.le_ge_cases e (-45)).
        + rewrite Z.min_l by lia. rewrite Z.sub_diag, Hcmp.
          replace (- e) with (45 + (-45 - e)) by lia.
          rewrite Z.pow_add_r by lia.
          change (2 ^ 45) with 35184372088832. change (2 ^ 0) with 1. lia.
        + rewrite Z.min_r by lia. replace (-45 - -45) with 0 by lia.
          assert (2 ^ 45 = 2 ^ (- e) * 2 ^ (e - -45)) as Hp.
          { rewrite <- Z.pow_add_r by lia. f_equal. lia. }
          change (2 ^ 45) with 35184372088832 in Hp. change (2 ^ 0) with 1. nia. }
    simpl cond_Zopp. rewrite Hv, Z.sub_diag. reflexivity.
Qed.

End Floats.

(** ** The signal branch *)

Section Signal.

Lemma mean_signal_float (signal : value) (mean : num) :
  mean_signal signal = Ok mean -> exists f : spec_float, mean = NFloat f.
Proof.
  unfold mean_signal.
  destruct (py_sum signal) as [total|]; [|done].
  destruct (py_len signal) as [n|]; [|done]. simpl.
  unfold num_truediv.
  destruct total as [x|f].
  - destruct (n =? 0); [done|].
    destruct (Float.is_infinite _); [done|]. intros ?; simplify_eq; eauto.
  - simpl. destruct (Float.is_infinite _); simpl; [done|].
    destruct (Float.is_zero _); [done|]. intros ?; simplify_eq; eauto.
Qed.

(** The unclamped estimate of a float mean is a float and raises nothing,
    provided the integer offset converts to a float. *)
Lemma linear_estimate_float (base : Z) (slope f : spec_float) :
  Float.is_infinite (Float.of_int base) = false ->
  linear_estimate base slope (NFloat f)
  = Ok (NFloat (Float.add (Float.of_int base)
                  (Float.mul (Float.sub f (Float.of_int 128)) slope))).
Proof.
  intros Hbase. unfold linear_estimate. simpl.
  unfold to_float. by rewrite Hbase.
Qed.

Lemma mock_bp_linear (hi lo base : Z) (slope : spec_float) (mean : num) :
  mock_bp hi lo base slope mean
  = raw ← linear_estimate base slope mean;
    Ok (num_min (NInt hi) (num_max (NInt lo) raw)).
Proof.
  unfold mock_bp, linear_estimate.
  destruct (num_sub mean (NInt 128)) as [centred|]; [|done]. simpl.
  destruct (num_mul centred (NFloat slope)) as [scaled|]; [|done]. done.
Qed.

(** [min(hi, max(lo, x))] is the clamp of [x] between [lo] and [hi]. *)
Lemma num_min_max_clamp (x : num) (lo hi : Z) :
  lo < hi -> num_min (NInt hi) (num_max (NInt lo) x) = clamp x (NInt lo) (NInt hi).
Proof.
  intros Hlt. unfold num_min, num_max, clamp.
  destruct (num_gtb x (NInt lo)); [done|].
  unfold num_ltb. simpl. by rewrite (proj2 (Z.compare_lt_iff lo hi) Hlt).
Qed.

Lemma clamp_in_range (x : num) (lo hi : Z) :
  lo < hi -> in_range (clamp x (NInt lo) (NInt hi)) lo hi = true.
Proof.
  intros Hlt. unfold clamp, in_range.
  destruct (num_gtb x (NInt lo)) eqn:Hgt.
  - destruct (num_ltb x (NInt hi)) eqn:Hlt'.
    + rewrite num_leb_int_l, (num_gtb_geb _ _ Hgt), (num_ltb_leb _ _ Hlt'). done.
    + unfold num_leb. simpl.
      rewrite Z.compare_refl, (proj2 (Z.compare_lt_iff lo hi) Hlt). done.
  - unfold num_leb. simpl.
    rewrite Z.compare_refl, (proj2 (Z.compare_lt_iff lo hi) Hlt). done.
Qed.

(** The readings of the signal branch, once the mean is known. *)
Lemma predict_readings_signal (d : gmap string value) (signal : value)
    (n : Z) (f : spec_float) :
  d !! "signal" = Some signal ->
  py_len signal = Ok n ->
  100 <= n ->
  mean_signal signal = Ok (NFloat f) ->
  predict_readings (VDict d)
  = Ok (inr (of_num (clamp (NFloat (Float.add (Float.of_int 120)
                                      (Float.mul (Float.sub f (Float.of_int 128))
                                         Float.lit_0_3)))
                       (NInt 90) (NInt 160)),
             of_num (clamp (NFloat (Float.add (Float.of_int 80)
                                      (Float.mul (Float.sub f (Float.of_int 128))
                                         Float.lit_0_2)))
                       (NInt 60) (NInt 100)))).
Proof.
  intros Hsig Hlen Hn Hmean.
  unfold predict_readings, dict_get. rewrite Hsig. simpl default.
  rewrite Hlen. cbn [mbind result_bind].
  rewrite (proj2 (Z.leb_le 100 n) Hn), Hmean. cbn [mbind result_bind].
  rewrite !mock_bp_linear, !linear_estimate_float by done. cbn [mbind result_bind].
  rewrite !num_min_max_clamp by lia. done.
Qed.

End Signal.

(** ** Signals whose mean is always computed *)

Section Totality.

Lemma digits2_pos_bounds (m : positive) :
  2 ^ (Zpos (digits2_pos m) - 1) <= Zpos m < 2 ^ Zpos (digits2_pos m).
Proof.
  induction m as [p IH|p IH|]; simpl digits2_pos.
  - rewrite Pos2Z.inj_succ, Z.pow_succ_r by lia.
    replace (Z.succ (Zpos (digits2_pos p)) - 1)
      with (Z.succ (Zpos (digits2_pos p) - 1)) by lia.
    rewrite Z.pow_succ_r by lia. lia.
  - rewrite Pos2Z.inj_succ, Z.pow_succ_r by lia.
    replace (Z.succ (Zpos (digits2_pos p)) - 1)
      with (Z.succ (Zpos (digits2_pos p) - 1)) by lia.
    rewrite Z.pow_succ_r by lia. lia.
  - simpl. lia.
Qed.

Lemma digits2_pos_iter_xO (m d : positive) :
  digits2_pos (Pos.iter xO m d) = (digits2_pos m + d)%positive.
Proof.
  induction d as [|d IH] using Pos.peano_ind.
  - simpl. lia.
  - rewrite Pos.iter_succ. simpl digits2_pos. rewrite IH. lia.
Qed.

(** A mantissa of exactly 53 bits with an exponent in range is left as it
    is by rounding. *)
Lemma binary_round_aux_exact (s : bool) (m : positive) (e : Z) :
  digits2_pos m = 53%positive -> -1074 <= e <= 971 ->
  binary_round_aux Float.prec Float.emax s (Zpos m) e loc_Exact = S754_finite s m e.
Proof.
  intros Hd He. unfold binary_round_aux, shr_fexp, fexp, emin, Float.prec, Float.emax.
  simpl Zdigits2. rewrite Hd.
  replace (Z.max (53 + e - 53) (3 - 1024 - 53) - e) with 0 by lia.
  simpl. rewrite Hd.
  replace (Z.max (53 + e - 53) (3 - 1024 - 53) - e) with 0 by lia.
  simpl. by rewrite (proj2 (Z.leb_le e (1024 - 53))) by lia.
Qed.

(** A positive integer below [2^53] converts to a finite float. *)
Lemma of_int_small (p : positive) :
  Zpos p < 2 ^ 53 ->
  exists (m : positive) (e : Z), Float.of_int (Zpos p) = S754_finite false m e.
Proof.
  intros Hp. pose proof (digits2_pos_bounds p) as [Hlo _].
  assert (Zpos (digits2_pos p) <= 53) as Hd.
  { destruct (Z.le_gt_cases (Zpos (digits2_pos p)) 53) as [|Hgt]; [done|].
    assert (2 ^ 53 <= 2 ^ (Zpos (digits2_pos p) - 1))
      by (apply Z.pow_le_mono_r; lia). lia. }
  unfold Float.of_int, binary_normalize, binary_round, shl_align.
  unfold fexp, emin, Float.prec, Float.emax.
  replace (Z.max (Zpos (digits2_pos p) + 0 - 53) (3 - 1024 - 53) - 0)
    with (Zpos (digits2_pos p) - 53) by lia.
  destruct (Zpos (digits2_pos p) - 53) as [|q|q] eqn:Hq.
  - eexists _, _. apply binary_round_aux_exact; [lia | lia].
  - lia.
  - eexists _, _. apply binary_round_aux_exact.
    + rewrite digits2_pos_iter_xO. lia.
    + lia.
Qed.

Lemma sum_floats_from (l : list value) (acc : spec_float) :
  Forall (fun v => is_float v = true) l ->
  exists f : spec_float, foldl sum_step (Ok (NFloat acc)) l = Ok (NFloat f).
Proof.
  intros Hl. revert acc.
  induction Hl as [|v l Hv _ IH]; intros acc; simpl; [eauto|].
  destruct v; try discriminate Hv. apply IH.
Qed.

(** The mean of a non-empty list of floats is computed without an
    exception. *)
Lemma mean_signal_floats (l : list value) :
  Forall (fun v => is_float v = true) l ->
  (0 < length l)%nat ->
  Z.of_nat (length l) < 2 ^ 53 ->
  exists f : spec_float, mean_signal (VList l) = Ok (NFloat f).
Proof.
  intros Hl Hpos Hlen. unfold mean_signal. simpl py_sum. simpl py_len.
  destruct Hl as [|v l Hv Hl]; [simpl in Hpos; lia|].
  destruct v; try discriminate Hv.
  destruct (sum_floats_from l (Float.add (S754_zero false) f) Hl) as [total Htotal].
  change (foldl sum_step (Ok (NInt 0)) (VFloat f :: l))
    with (foldl sum_step (Ok (NFloat (Float.add (S754_zero false) f))) l).
  rewrite Htotal. cbn [mbind result_bind].
  destruct (Z.of_nat (length (VFloat f :: l))) as [|p|p] eqn:Hp; [simpl in Hp; lia| |lia].
  destruct (of_int_small p Hlen) as (m & e & Hm).
  unfold num_truediv, to_float. cbn [mbind result_bind]. rewrite Hm. simpl. eauto.
Qed.
End Totality.

(** Three signals: an estimate inside the bounds, one above the upper
    bound (the bound itself, an integer, is returned) and a NaN mean (the
    lower bounds are returned). *)
Example readings_mean_200 :
  predict (VDict (constant_signal 100 (VInt 200)))
  = Ok (prediction (VFloat (Float.div_int 1416 10)) (VFloat (Float.div_int 944 10))
          "Hypertension Stage 2").
Proof. vm_compute. reflexivity. Qed.

Example readings_mean_300 :
  predict (VDict (constant_signal 100 (VInt 300)))
  = Ok (prediction (VInt 160) (VInt 100) "Hypertension Stage 2").
Proof. vm_compute. reflexivity. Qed.

Example readings_mean_nan :
  predict (VDict (constant_signal 100 (VFloat S754_nan)))
  = Ok (prediction (VInt 90) (VInt 60) "Normal").
Proof. vm_compute. reflexivity. Qed.

(** C3. For every signal request whose signal has at least 100 items and
    whose mean is [mean], the readings are
    [systolic = clamp(120 + (mean - 128) * 0.3, 90, 160)] and
    [diastolic = clamp(80 + (mean - 128) * 0.2, 60, 100)]; systolic lies in
    [90, 160] and diastolic in [60, 100]. *)
Theorem signal_readings_clamped (d : gmap string value) (signal : value)
    (n : Z) (mean : num) :
  d !! "signal" = Some signal ->
  py_len signal = Ok n ->
  100 <= n ->
  mean_signal signal = Ok mean ->
  exists raw_systolic raw_diastolic : num,
    linear_estimate 120 Float.lit_0_3 mean = Ok raw_systolic
    /\ linear_estimate 80 Float.lit_0_2 mean = Ok raw_diastolic
    /\ predict_readings (VDict d)
       = Ok (inr (of_num (clamp raw_systolic (NInt 90) (NInt 160)),
                  of_num (clamp raw_diastolic (NInt 60) (NInt 100))))
    /\ in_range (clamp raw_systolic (NInt 90) (NInt 160)) 90 160 = true
    /\ in_range (clamp raw_diastolic (NInt 60) (NInt 100)) 60 100 = true.
Proof.
  intros Hsig Hlen Hn Hmean.
  destruct (mean_signal_float signal mean Hmean) as [f ->].
  eexists _, _. split; [by apply linear_estimate_float|].
  split; [by apply linear_estimate_float|].
  split; [by apply (predict_readings_signal d signal n f)|].
  split; apply clamp_in_range; lia.
Qed.

Lemma signal_readings_clamped_witness :
  exists raw_systolic raw_diastolic : num,
    linear_estimate 120 Float.lit_0_3 (NFloat (Float.of_int 200)) = Ok raw_systolic
    /\ linear_estimate 80 Float.lit_0_2 (NFloat (Float.of_int 200)) = Ok raw_diastolic
    /\ predict_readings (VDict (constant_signal 100 (VInt 200)))
       = Ok (inr (of_num (clamp raw_systolic (NInt 90) (NInt 160)),
                  of_num (clamp raw_diastolic (NInt 60) (NInt 100))))
    /\ in_range (clamp raw_systolic (NInt 90) (NInt 160)) 90 160 = true
    /\ in_range (clamp raw_diastolic (NInt 60) (NInt 100)) 60 100 = true.
Proof.
  apply (signal_readings_clamped (constant_signal 100 (VInt 200))
           (VList (replicate 100 (VInt 200))) 100 (NFloat (Float.of_int 200)));
    [reflexivity | reflexivity | lia | vm_compute; reflexivity].
Defined.

(** C1, as the code has it. For every signal request whose signal has at
    least 100 items and whose mean equals 128, the response is 200 with
    systolic 120.0, diastolic 80.0 and category Hypertension Stage 1:
    diastolic 80.0 is not below 80, so neither Normal nor Elevated applies
    and the third rule does. *)
Theorem mean_128_response (d : gmap string value) (signal : value)
    (n : Z) (mean : num) :
  d !! "signal" = Some signal ->
  py_len signal = Ok n ->
  100 <= n ->
  mean_signal signal = Ok mean ->
  num_eqb mean (NInt 128) = true ->
  predict (VDict d)
  = Ok (prediction (VFloat (Float.of_int 120)) (VFloat (Float.of_int 80))
          "Hypertension Stage 1").
Proof.
  intros Hsig Hlen Hn Hmean Heq.
  destruct (mean_signal_float signal mean Hmean) as [f ->].
  assert (Float.sub f (Float.of_int 128) = S754_zero false) as Hzero.
  { apply sub_eq_128. unfold num_eqb in Heq. simpl in Heq.
    by destruct (Float.compare_int f 128) as [[]|]. }
  unfold predict.
  rewrite (predict_readings_signal d signal n f Hsig Hlen Hn Hmean), Hzero.
  vm_compute. reflexivity.
Qed.

Lemma mean_128_response_witness :
  predict (VDict (constant_signal 100 (VInt 128)))
  = Ok (prediction (VFloat (Float.of_int 120)) (VFloat (Float.of_int 80))
          "Hypertension Stage 1").
Proof.
  apply (mean_128_response (constant_signal 100 (VInt 128))
           (VList (replicate 100 (VInt 128))) 100 (NFloat (Float.of_int 128)));
    [reflexivity | reflexivity | lia | vm_compute; reflexivity | reflexivity].
Defined.

(** C1, as the specification has it, fails: a signal of 100 samples equal
    to 128 has mean 128 and is classified Hypertension Stage 1, not
    Elevated. *)
Lemma mean_128_not_elevated :
  py_len (VList (replicate 100 (VInt 128))) = Ok 100
  /\ mean_signal (VList (replicate 100 (VInt 128))) = Ok (NFloat (Float.of_int 128))
  /\ exists r : response,
       predict (VDict (constant_signal 100 (VInt 128))) = Ok r
       /\ body r !! "systolic" = Some (VFloat (Float.of_int 120))
       /\ body r !! "diastolic" = Some (VFloat (Float.of_int 80))
       /\ body r !! "category" = Some (VStr "Hypertension Stage 1")
       /\ body r !! "category" <> Some (VStr "Elevated").
Proof.
  split; [reflexivity|]. split; [vm_compute; reflexivity|].
  eexists. split; [vm_compute; reflexivity|].
  repeat split; try (vm_compute; reflexivity).
  vm_compute. discriminate.
Qed.

(** ** The endpoint *)

Section Endpoint.

(** The readings of the legacy branch. *)
Lemma predict_readings_legacy (d : gmap string value) :
  d !! "signal" = None ->
  is_none (dict_get d "systolic" VNone) = false ->
  is_none (dict_get d "diastolic" VNone) = false ->
  predict_readings (VDict d)
  = Ok (inr (dict_get d "systolic" VNone, dict_get d "diastolic" VNone)).
Proof.
  intros Hsig Hs Hd. unfold predict_readings. by rewrite Hsig, Hs, Hd.
Qed.

(** [round] raises nothing on a number. *)
Lemma py_round1_num (v : value) (a : num) :
  as_num v = Some a ->
  exists r : value, py_round1 v = Ok r /\ is_Some (as_num r).
Proof. destruct v; intros H; try done; simpl; eauto. Qed.

(** On numeric readings the second part of [predict] answers 200. *)
Lemma predict_respond_num (vs vd : value) (s d : num) :
  as_num vs = Some s ->
  as_num vd = Some d ->
  exists rs rd : value,
    py_round1 vs = Ok rs /\ py_round1 vd = Ok rd
    /\ predict_respond vs vd = Ok (prediction rs rd (category_of s d)).
Proof.
  intros Hs Hd.
  destruct (py_round1_num vs s Hs) as (rs & Hrs & _).
  destruct (py_round1_num vd d Hd) as (rd & Hrd & _).
  exists rs, rd. repeat split; [done..|].
  unfold predict_respond.
  by rewrite (determine_bp_category_num vs vd s d Hs Hd), Hrs, Hrd.
Qed.

(** The response depends on three fields of the request only. *)
Lemma predict_fields (d1 d2 : gmap string value) :
  d1 !! "signal" = d2 !! "signal" ->
  d1 !! "systolic" = d2 !! "systolic" ->
  d1 !! "diastolic" = d2 !! "diastolic" ->
  predict (VDict d1) = predict (VDict d2).
Proof.
  intros Hsig Hs Hd. unfold predict, predict_readings, dict_get.
  by rewrite Hsig, Hs, Hd.
Qed.

End Endpoint.

(** C4. For every signal request whose signal has fewer than 100 items, the
    endpoint answers 400 with the error "Insufficient signal data", and
    no readings are computed. *)
Theorem short_signal_rejected (d : gmap string value) (signal : value) (n : Z) :
  d !! "signal" = Some signal ->
  py_len signal = Ok n ->
  n < 100 ->
  predict_readings (VDict d) = Ok (inl (invalid_input "Insufficient signal data"))
  /\ predict (VDict d) = Ok (invalid_input "Insufficient signal data").
Proof.
  intros Hsig Hlen Hn.
  assert (predict_readings (VDict d)
          = Ok (inl (invalid_input "Insufficient signal data"))) as Hr.
  { unfold predict_readings, dict_get. rewrite Hsig. simpl default.
    rewrite Hlen. cbn [mbind result_bind].
    by rewrite (proj2 (Z.leb_gt 100 n) Hn). }
  split; [done|]. unfold predict. by rewrite Hr.
Qed.

Lemma short_signal_rejected_witness :
  predict_readings (VDict (constant_signal 99 (VInt 128)))
  = Ok (inl (invalid_input "Insufficient signal data"))
  /\ predict (VDict (constant_signal 99 (VInt 128)))
     = Ok (invalid_input "Insufficient signal data").
Proof.
  apply (short_signal_rejected (constant_signal 99 (VInt 128))
           (VList (replicate 99 (VInt 128))) 99);
    [reflexivity | reflexivity | lia].
Defined.

(** C5. For every legacy request (no signal field) in which the systolic
    field or the diastolic field is absent, the endpoint answers 400 with
    the error "Invalid input". *)
Theorem missing_reading_rejected (d : gmap string value) :
  d !! "signal" = None ->
  d !! "systolic" = None \/ d !! "diastolic" = None ->
  predict (VDict d) = Ok (invalid_input "Invalid input").
Proof.
  intros Hsig Hmiss. unfold predict, predict_readings, dict_get. rewrite Hsig.
  destruct Hmiss as [-> | ->]; simpl default.
  - done.
  - by rewrite orb_true_r.
Qed.

Lemma missing_reading_rejected_witness :
  predict (VDict {[ "systolic" := VInt 118 ]}) = Ok (invalid_input "Invalid input").
Proof.
  apply (missing_reading_rejected {[ "systolic" := VInt 118 ]});
    [reflexivity | right; reflexivity].
Defined.

(** C7, as the code has it. For every request that passes the validation of
    its branch and whose readings are numbers obtained without an exception
    (the mean of the signal can be computed, or both legacy readings are
    numbers), the endpoint answers 200 with systolic and diastolic rounded
    to one decimal, the category of the unrounded readings and
    [success: true]. *)
Theorem validated_numeric_request_succeeds (d : gmap string value) :
  passes_validation d ->
  numeric_readings d ->
  exists (systolic diastolic rounded_systolic rounded_diastolic : value)
         (category : string),
    predict_readings (VDict d) = Ok (inr (systolic, diastolic))
    /\ determine_bp_category systolic diastolic = Ok category
    /\ py_round1 systolic = Ok rounded_systolic
    /\ py_round1 diastolic = Ok rounded_diastolic
    /\ predict (VDict d)
       = Ok (Response 200
               {[ "systolic" := rounded_systolic;
                  "diastolic" := rounded_diastolic;
                  "category" := VStr category;
                  "success" := VBool true ]}).
Proof.
  unfold passes_validation, numeric_readings.
  destruct (d !! "signal") as [signal|] eqn:Hsig.
  - intros (n & Hlen & Hn) (mean & Hmean).
    destruct (mean_signal_float signal mean Hmean) as [f ->].
    pose proof (predict_readings_signal d signal n f Hsig Hlen Hn Hmean) as Hr.
    match type of Hr with _ = Ok (inr (?vs, ?vd)) =>
      destruct (predict_respond_num vs vd _ _ (as_num_of_num _) (as_num_of_num _))
        as (rs & rd & Hrs & Hrd & Hresp);
      exists vs, vd, rs, rd
    end.
    eexists. split; [exact Hr|].
    split; [apply determine_bp_category_num; apply as_num_of_num|].
    split; [done|]. split; [done|].
    unfold predict. rewrite Hr. exact Hresp.
  - intros [Hvs Hvd] [[s Hs] [dd Hdd]].
    pose proof (predict_readings_legacy d Hsig Hvs Hvd) as Hr.
    destruct (predict_respond_num _ _ s dd Hs Hdd) as (rs & rd & Hrs & Hrd & Hresp).
    eexists _, _, rs, rd, _. split; [exact Hr|].
    split; [by apply determine_bp_category_num|].
    split; [done|]. split; [done|].
    unfold predict. rewrite Hr. exact Hresp.
Qed.

Lemma validated_numeric_request_succeeds_witness :
  exists (systolic diastolic rounded_systolic rounded_diastolic : value)
         (category : string),
    predict_readings (VDict {[ "systolic" := VFloat (Float.div_int 11826 100);
                               "diastolic" := VInt 75 ]})
    = Ok (inr (systolic, diastolic))
    /\ determine_bp_category systolic diastolic = Ok category
    /\ py_round1 systolic = Ok rounded_systolic
    /\ py_round1 diastolic = Ok rounded_diastolic
    /\ predict (VDict {[ "systolic" := VFloat (Float.div_int 11826 100);
                         "diastolic" := VInt 75 ]})
       = Ok (Response 200
               {[ "systolic" := rounded_systolic;
                  "diastolic" := rounded_diastolic;
                  "category" := VStr category;
                  "success" := VBool true ]}).
Proof.
  apply (validated_numeric_request_succeeds
           {[ "systolic" := VFloat (Float.div_int 11826 100);
              "diastolic" := VInt 75 ]}).
  - vm_compute. split; reflexivity.
  - vm_compute. split; eexists; reflexivity.
Defined.

(** C7, as the specification has it, fails: a request can pass the
    validation of its branch and still end in an uncaught exception. A
    signal of 100 integers equal to [10^400] has a mean beyond the range of
    floats; a legacy request whose readings are strings cannot be compared
    with the thresholds. *)
Lemma validated_request_raises :
  (passes_validation (constant_signal 100 (VInt (10 ^ 400)))
   /\ predict (VDict (constant_signal 100 (VInt (10 ^ 400)))) = Raise OverflowError)
  /\ (passes_validation {[ "systolic" := VStr "120"; "diastolic" := VStr "80" ]}
      /\ predict (VDict {[ "systolic" := VStr "120"; "diastolic" := VStr "80" ]})
         = Raise TypeError).
Proof.
  split; split.
  - exists 100. split; [reflexivity | lia].
  - vm_compute. reflexivity.
  - vm_compute. split; reflexivity.
  - vm_compute. reflexivity.
Qed.

(** C8, as the code has it. For every export request whose body is an
    object in which the samples field is absent or has a length (an array,
    a string or an object), the endpoint prints the number of samples and
    answers 200 with [success: true] and the message "Session data exported
    successfully", whatever the items are; an absent field counts as 0
    samples. *)
Theorem export_sized_samples (d : gmap string value) :
  (forall samples : value, d !! "samples" = Some samples -> sized samples = true) ->
  exists n : Z,
    py_len (dict_get d "samples" (VList [])) = Ok n
    /\ (d !! "samples" = None -> n = 0)
    /\ export_session (VDict d)
       = Ok ("Session exported: " +:+ pretty n +:+ " samples",
             Response 200
               {[ "success" := VBool true;
                  "message" := VStr "Session data exported successfully" ]}).
Proof.
  intros Hsized. unfold export_session, dict_get.
  destruct (d !! "samples") as [samples|] eqn:Hs; simpl default.
  - specialize (Hsized samples eq_refl).
    destruct samples; try discriminate Hsized; simpl py_len;
      eexists; (split; [reflexivity|]); (split; [discriminate|]); reflexivity.
  - exists 0. repeat split; reflexivity.
Qed.

Lemma export_sized_samples_witness :
  exists n : Z,
    py_len (dict_get {[ "samples" := VList [VNone; VInt 3; VStr "x"] ]}
              "samples" (VList [])) = Ok n
    /\ (({[ "samples" := VList [VNone; VInt 3; VStr "x"] ]} : gmap string value)
          !! "samples" = None -> n = 0)
    /\ export_session (VDict {[ "samples" := VList [VNone; VInt 3; VStr "x"] ]})
       = Ok ("Session exported: " +:+ pretty n +:+ " samples",
             Response 200
               {[ "success" := VBool true;
                  "message" := VStr "Session data exported successfully" ]}).
Proof.
  apply (export_sized_samples {[ "samples" := VList [VNone; VInt 3; VStr "x"] ]}).
  intros samples. vm_compute. intros H. injection H as <-. reflexivity.
Defined.

(** C8, as the specification has it, fails: a samples field that has no
    length (a number, or null) makes [len] raise. *)
Lemma export_unsized_samples_raises :
  export_session (VDict {[ "samples" := VInt 5 ]}) = Raise TypeError
  /\ export_session (VDict {[ "samples" := VNone ]}) = Raise TypeError.
Proof. split; vm_compute; reflexivity. Qed.

(** C10. Two signal requests that agree on every field other than emotion
    get the same outcome from the endpoint. *)
Theorem emotion_has_no_effect (d1 d2 : gmap string value) :
  is_Some (d1 !! "signal") ->
  delete "emotion" d1 = delete "emotion" d2 ->
  is_Some (d2 !! "signal") /\ predict (VDict d1) = predict (VDict d2).
Proof.
  intros Hsig Heq.
  assert (forall k : string, k <> "emotion" -> d1 !! k = d2 !! k) as Hk.
  { intros k Hne.
    rewrite <- (lookup_delete_ne d1 "emotion" k), <- (lookup_delete_ne d2 "emotion" k)
      by done.
    by rewrite Heq. }
  split.
  - by rewrite <- Hk.
  - apply predict_fields; by apply Hk.
Qed.

Lemma emotion_has_no_effect_witness :
  is_Some ((constant_signal 100 (VInt 128)) !! "signal")
  /\ predict (VDict (<[ "emotion" := VStr "happy" ]> (constant_signal 100 (VInt 128))))
     = predict (VDict (constant_signal 100 (VInt 128))).
Proof.
  apply (emotion_has_no_effect
           (<[ "emotion" := VStr "happy" ]> (constant_signal 100 (VInt 128)))
           (constant_signal 100 (VInt 128))).
  - eexists. reflexivity.
  - vm_compute. reflexivity.
Defined.

(** * Further properties of the classifier and the two handlers *)

(** ** Positions with respect to the thresholds *)

Section Thresholds.

(** Against integers a number behaves as a NaN, as an infinity, or as the
    ratio of two integers. *)
Lemma num_compare_int_cases (a : num) :
  (ordered a = false /\ forall z : Z, num_compare a (NInt z) = None)
  \/ (exists c : comparison,
        c <> Eq /\ ordered a = true /\ forall z : Z, num_compare a (NInt z) = Some c)
  \/ (exists V K : Z,
        0 < K /\ ordered a = true
        /\ forall z : Z, num_compare a (NInt z) = Some (V ?= z * K)).
Proof.
  destruct a as [x|[s|s| |s m e]].
  - right; right. exists x, 1. split; [lia|]. split; [done|].
    intros z. simpl. by rewrite Z.mul_1_r.
  - right; right. exists 0, 1. split; [lia|]. split; [done|].
    intros z. simpl. by rewrite Z.mul_1_r.
  - right; left. exists (if s then Lt else Gt). split; [by destruct s|done].
  - by left.
  - right; right. simpl. destruct (0 <=? e) eqn:He.
    + exists ((if s then Z.neg m else Z.pos m) * 2 ^ e), 1. split; [lia|].
      split; [done|]. intros z. by rewrite Z.mul_1_r.
    + exists (if s then Z.neg m else Z.pos m), (2 ^ (- e)). split; [|done].
      apply Z.leb_gt in He. apply Z.pow_pos_nonneg; lia.
Qed.

End Thresholds.

(** Case analysis on the position of [a] with respect to the thresholds
    that occur in the goal. *)
Ltac threshold_cases a :=
  let H := fresh "H" in
  let Ho := fresh "Ho" in
  let c := fresh "c" in
  let Hc := fresh "Hc" in
  let V := fresh "V" in
  let K := fresh "K" in
  let HK := fresh "HK" in
  destruct (num_compare_int_cases a)
    as [[Ho H]|[(c & Hc & Ho & H)|(V & K & HK & Ho & H)]];
  rewrite ?Ho;
  [ rewrite !H
  | rewrite !H; destruct c; [congruence| |]
  | rewrite !H;
    repeat match goal with
      | |- context [?x ?= ?y] => destruct (Z.compare_spec x y)
      end ];
  clear H Ho.

Ltac classify s d :=
  rewrite (determine_bp_category_num _ _ s d (as_num_of_num s) (as_num_of_num d));
  unfold category_of, category_rules, first_match, in_band;
  rewrite ?num_leb_int_l; unfold num_ltb, num_geb;
  threshold_cases s; threshold_cases d; simpl.

Section NonNumbers.

(** A reading that is not a number: always a [TypeError] when it is the
    systolic one; when it is the diastolic one, the third rule answers
    before looking at it if systolic is in [130, 140). *)
Lemma determine_bp_category_non_number (vs vd : value) :
  (as_num vs = None -> determine_bp_category vs vd = Raise TypeError)
  /\ (forall s : num,
        as_num vs = Some s -> as_num vd = None ->
        determine_bp_category vs vd
        = if in_band s 130 140 then Ok "Hypertension Stage 1" else Raise TypeError).
Proof.
  split.
  - intros Hs. unfold determine_bp_category, py_lt, py_cmp. by rewrite Hs.
  - intros s Hs Hd.
    unfold determine_bp_category, py_lt, py_le, py_ge, py_cmp, in_band.
    rewrite Hs, Hd. simpl.
    rewrite ?num_leb_int_l. unfold num_ltb, num_geb.
    threshold_cases s; simpl; try lia; reflexivity.
Qed.

End NonNumbers.

(** X1. Hypertension Stage 1 is returned exactly when one reading is in its
    Stage 1 band, whatever the other reading is: a reading in its Stage 1
    band wins over a Stage 2 level of the other reading. *)
Theorem stage1_iff_band (s d : num) :
  determine_bp_category (of_num s) (of_num d) = Ok "Hypertension Stage 1"
  <-> in_band s 130 140 = true \/ in_band d 80 90 = true.
Proof.
  classify s d; try lia; (split; [intros ?; simplify_eq; auto | intros [?|?]; congruence]).
Qed.

(** X2. Hypertension Stage 2 is returned exactly when one reading is at its
    Stage 2 level and the other one is outside its Stage 1 band. *)
Theorem stage2_iff (s d : num) :
  determine_bp_category (of_num s) (of_num d) = Ok "Hypertension Stage 2"
  <-> (num_geb s (NInt 140) = true /\ in_band d 80 90 = false)
      \/ (num_geb d (NInt 90) = true /\ in_band s 130 140 = false).
Proof.
  classify s d; try lia;
    (split; [intros ?; simplify_eq; auto | intros [[? ?]|[? ?]]; congruence]).
Qed.

(** X3. Unknown is returned exactly when a reading is a NaN and the other
    one triggers no rule: both are NaN, or systolic is NaN and diastolic is
    below 80, or diastolic is NaN and systolic is below 130. *)
Theorem unknown_iff_nan (s d : num) :
  determine_bp_category (of_num s) (of_num d) = Ok "Unknown"
  <-> (ordered s = false /\ ordered d = false)
      \/ (ordered s = false /\ num_ltb d (NInt 80) = true)
      \/ (ordered d = false /\ num_ltb s (NInt 130) = true).
Proof.
  classify s d; try lia;
    (split; [intros ?; simplify_eq; auto
            | intros [[? ?]|[[? ?]|[? ?]]]; congruence]).
Qed.

(** X4. A reading that is not a number: the classifier raises [TypeError]
    when it is the systolic one; when it is the diastolic one, it answers
    Hypertension Stage 1 without looking at it if systolic is in
    [130, 140), and raises [TypeError] otherwise. *)
Theorem classifier_non_number (vs vd : value) :
  (as_num vs = None -> determine_bp_category vs vd = Raise TypeError)
  /\ (forall s : num,
        as_num vs = Some s -> as_num vd = None ->
        determine_bp_category vs vd
        = if in_band s 130 140 then Ok "Hypertension Stage 1" else Raise TypeError).
Proof. exact (determine_bp_category_non_number vs vd). Qed.

(** X5. The category is not monotone in systolic: with diastolic at 90 or
    more, a systolic below 130 is Hypertension Stage 2 while a higher
    systolic, in [130, 140), is only Hypertension Stage 1. *)
Theorem higher_systolic_lower_category (s s' d : num) :
  num_geb d (NInt 90) = true ->
  num_ltb s (NInt 130) = true ->
  in_band s' 130 140 = true ->
  determine_bp_category (of_num s) (of_num d) = Ok "Hypertension Stage 2"
  /\ determine_bp_category (of_num s') (of_num d) = Ok "Hypertension Stage 1".
Proof.
  intros Hd Hs Hs'. split.
  - clear Hs'. revert Hd Hs. classify s d; try lia; congruence.
  - clear Hs. revert Hd Hs'. classify s' d; try lia; congruence.
Qed.

Lemma higher_systolic_lower_category_witness :
  determine_bp_category (VInt 125) (VInt 95) = Ok "Hypertension Stage 2"
  /\ determine_bp_category (VInt 135) (VInt 95) = Ok "Hypertension Stage 1".
Proof.
  apply (higher_systolic_lower_category (NInt 125) (NInt 135) (NInt 95)); reflexivity.
Defined.

(** ** What the prediction endpoint can answer *)

Section Outcomes.

Lemma category_of_labels (s d : num) :
  category_of s d ∈ ["Normal"; "Elevated"; "Hypertension Stage 1";
                     "Hypertension Stage 2"; "Unknown"].
Proof.
  unfold category_of, category_rules, first_match.
  repeat match goal with |- context [if ?b then _ else _] => destruct b end;
    set_solver.
Qed.

(** Whatever its arguments, the classifier returns one of the five labels
    or raises [TypeError]. *)
Lemma determine_bp_category_outcomes (vs vd : value) :
  determine_bp_category vs vd = Raise TypeError
  \/ exists c : string,
       determine_bp_category vs vd = Ok c
       /\ c ∈ ["Normal"; "Elevated"; "Hypertension Stage 1";
               "Hypertension Stage 2"; "Unknown"].
Proof.
  destruct (as_num vs) as [s|] eqn:Hs.
  - destruct (as_num vd) as [d|] eqn:Hd.
    + right. exists (category_of s d).
      split; [by apply determine_bp_category_num | apply category_of_labels].
    + rewrite (proj2 (determine_bp_category_non_number vs vd) s Hs Hd).
      destruct (in_band s 130 140); [right|by left].
      eexists. split; [done|]. set_solver.
  - left. by apply determine_bp_category_non_number.
Qed.

Lemma py_round1_outcomes (v r : value) :
  py_round1 v = Ok r -> is_Some (as_num v) /\ is_Some (as_num r).
Proof. destruct v; simpl; intros ?; simplify_eq; eauto. Qed.

Lemma predict_respond_outcomes (vs vd : value) (r : response) :
  predict_respond vs vd = Ok r ->
  exists (rs rd : value) (c : string),
    r = prediction rs rd c
    /\ is_Some (as_num rs) /\ is_Some (as_num rd)
    /\ c ∈ ["Normal"; "Elevated"; "Hypertension Stage 1";
            "Hypertension Stage 2"; "Unknown"].
Proof.
  unfold predict_respond.
  destruct (determine_bp_category_outcomes vs vd) as [->|(c & -> & Hc)]; [done|].
  cbn [mbind result_bind].
  destruct (py_round1 vs) as [rs|] eqn:Hrs; [|done].
  destruct (py_round1 vd) as [rd|] eqn:Hrd; [|done].
  cbn [mbind result_bind]. intros ?; simplify_eq.
  exists rs, rd, c. split; [done|].
  split; [by eapply py_round1_outcomes|]. split; [by eapply py_round1_outcomes|done].
Qed.

End Outcomes.

(** X6. Every response of the prediction endpoint is one of three: the 400
    for a short signal, the 400 for a missing reading, or a 200 whose body
    holds two numbers, one of the five category labels and
    [success: true]. *)
Theorem predict_responses (data : value) (r : response) :
  predict data = Ok r ->
  r = invalid_input "Insufficient signal data"
  \/ r = invalid_input "Invalid input"
  \/ exists (systolic diastolic : value) (category : string),
       r = prediction systolic diastolic category
       /\ is_Some (as_num systolic) /\ is_Some (as_num diastolic)
       /\ category ∈ ["Normal"; "Elevated"; "Hypertension Stage 1";
                      "Hypertension Stage 2"; "Unknown"].
Proof.
  unfold predict.
  destruct (predict_readings data) as [[early|[vs vd]]|] eqn:Hr; [| |done];
    cbn [mbind result_bind].
  - intros ?; simplify_eq.
    destruct data; try discriminate Hr.
    unfold predict_readings in Hr.
    destruct (d !! "signal") as [sig|].
    + destruct (py_len _) as [n|]; [|done]. cbn [mbind result_bind] in Hr.
      destruct (100 <=? n).
      * destruct (mean_signal _); [|done]. cbn [mbind result_bind] in Hr.
        destruct (mock_bp 160 _ _ _ _); [|done]. cbn [mbind result_bind] in Hr.
        destruct (mock_bp 100 _ _ _ _); done.
      * left. by simplify_eq.
    + destruct (is_none _ || is_none _); [|done]. right; left. by simplify_eq.
  - intros Hresp. right; right. by apply (predict_respond_outcomes vs vd).
Qed.

Lemma predict_responses_witness :
  prediction (VInt 118) (VInt 75) "Normal" = invalid_input "Insufficient signal data"
  \/ prediction (VInt 118) (VInt 75) "Normal" = invalid_input "Invalid input"
  \/ exists (systolic diastolic : value) (category : string),
       prediction (VInt 118) (VInt 75) "Normal"
       = prediction systolic diastolic category
       /\ is_Some (as_num systolic) /\ is_Some (as_num diastolic)
       /\ category ∈ ["Normal"; "Elevated"; "Hypertension Stage 1";
                      "Hypertension Stage 2"; "Unknown"].
Proof.
  apply (predict_responses (legacy_request 118 75)). vm_compute. reflexivity.
Defined.

(** ** The two branches *)

Section Branches.

Lemma predict_respond_status (vs vd : value) (r : response) :
  predict_respond vs vd = Ok r -> status r = 200.
Proof.
  intros (rs & rd & c & -> & _)%predict_respond_outcomes. done.
Qed.

(** [sum] keeps an exception once it is raised. *)
Lemma sum_raised (l : list value) (e : exn) :
  foldl sum_step (Raise e) l = Raise e.
Proof. induction l as [|v l IH]; [done|]. simpl. exact IH. Qed.

Lemma num_add_exn (a b : num) (e : exn) :
  num_add a b = Raise e -> e = OverflowError.
Proof.
  unfold num_add, to_float.
  destruct a as [x|f], b as [y|g]; simpl; try done;
    repeat match goal with
      | |- context [if ?c then _ else _] => destruct c; simpl
      end; intros ?; by simplify_eq.
Qed.

(** [sum] over a list with an item that is not a number ends in an
    exception. *)
Lemma sum_non_number (l : list value) (acc : result num) :
  (exists v : value, v ∈ l /\ as_num v = None) ->
  (forall e : exn, acc = Raise e -> e = TypeError \/ e = OverflowError) ->
  exists e : exn,
    foldl sum_step acc l = Raise e /\ (e = TypeError \/ e = OverflowError).
Proof.
  revert acc. induction l as [|x l IH]; intros acc (v & Hin & Hv) Hacc.
  - by apply elem_of_nil in Hin.
  - simpl. apply elem_of_cons in Hin as [<-|Hin].
    + destruct acc as [a|e].
      * unfold sum_step. cbn [mbind result_bind]. rewrite Hv.
        rewrite sum_raised. eauto.
      * simpl. rewrite sum_raised. eauto.
    + apply IH; [eauto|].
      intros e. destruct acc as [a|e0]; simpl.
      * destruct (as_num x) as [b|]; [|intros ?; simplify_eq; auto].
        intros ->%num_add_exn. auto.
      * intros ?; simplify_eq. by apply Hacc.
Qed.

End Branches.

(** X7. A legacy request gets the 400 "Invalid input" exactly when its
    systolic or its diastolic is absent or null; a reading of 0 or [false]
    is not missing. *)
Theorem legacy_rejected_iff (d : gmap string value) :
  d !! "signal" = None ->
  predict (VDict d) = Ok (invalid_input "Invalid input")
  <-> (d !! "systolic" = None \/ d !! "systolic" = Some VNone
       \/ d !! "diastolic" = None \/ d !! "diastolic" = Some VNone).
Proof.
  intros Hsig. unfold predict, predict_readings, dict_get. rewrite Hsig.
  destruct (d !! "systolic") as [vs|]; destruct (d !! "diastolic") as [vd|];
    simpl default; try (split; [auto|done]).
  - destruct (is_none vs) eqn:Hs; simpl.
    + destruct vs; try discriminate Hs. split; auto.
    + destruct (is_none vd) eqn:Hd; simpl.
      * destruct vd; try discriminate Hd. split; auto.
      * split.
        -- intros Hr%predict_respond_status. done.
        -- intros [?|[?|[?|?]]]; simplify_eq; done.
  - rewrite orb_true_r. split; auto.
Qed.

Lemma legacy_rejected_iff_witness :
  predict (VDict {[ "systolic" := VInt 0; "diastolic" := VNone ]})
  = Ok (invalid_input "Invalid input")
  <-> (({[ "systolic" := VInt 0; "diastolic" := VNone ]} : gmap string value)
         !! "systolic" = None
       \/ ({[ "systolic" := VInt 0; "diastolic" := VNone ]} : gmap string value)
            !! "systolic" = Some VNone
       \/ ({[ "systolic" := VInt 0; "diastolic" := VNone ]} : gmap string value)
            !! "diastolic" = None
       \/ ({[ "systolic" := VInt 0; "diastolic" := VNone ]} : gmap string value)
            !! "diastolic" = Some VNone).
Proof.
  apply (legacy_rejected_iff {[ "systolic" := VInt 0; "diastolic" := VNone ]}).
  reflexivity.
Defined.

(** X8. When the signal field is present it alone decides the outcome: the
    legacy readings and every other field are never consulted, also when
    the signal is unusable. *)
Theorem signal_alone_decides (d1 d2 : gmap string value) (signal : value) :
  d1 !! "signal" = Some signal ->
  d2 !! "signal" = Some signal ->
  predict (VDict d1) = predict (VDict d2).
Proof.
  intros H1 H2. unfold predict, predict_readings, dict_get. by rewrite H1, H2.
Qed.

Lemma signal_alone_decides_witness :
  predict (VDict {[ "signal" := VNone; "systolic" := VInt 118; "diastolic" := VInt 75 ]})
  = predict (VDict {[ "signal" := VNone ]}).
Proof.
  apply (signal_alone_decides _ _ VNone); reflexivity.
Defined.

(** X9. A signal that is not an array never gets a 200: it is refused as too
    short when it is a string or an object with fewer than 100 items, and
    raises [TypeError] otherwise. *)
Theorem signal_not_a_list (d : gmap string value) (signal : value) :
  d !! "signal" = Some signal ->
  (forall l : list value, signal <> VList l) ->
  predict (VDict d)
  = match py_len signal with
    | Ok n =>
        if n <? 100 then Ok (invalid_input "Insufficient signal data")
        else Raise TypeError
    | Raise _ => Raise TypeError
    end.
Proof.
  intros Hsig Hl. unfold predict, predict_readings, dict_get. rewrite Hsig.
  simpl default.
  destruct signal as [| | | |s|l|m]; try done.
  - simpl py_len. cbn [mbind result_bind]. rewrite Z.leb_antisym.
    destruct (Z.of_nat (String.length s) <? 100) eqn:Hn; simpl; [done|].
    unfold mean_signal. simpl py_sum.
    destruct (decide (s = "")) as [->|]; [|done]. simpl in Hn. done.
  - by destruct (Hl l).
  - simpl py_len. cbn [mbind result_bind]. rewrite Z.leb_antisym.
    destruct (Z.of_nat (size m) <? 100) eqn:Hn; simpl; [done|].
    unfold mean_signal. simpl py_sum.
    destruct (decide (m = ∅)) as [->|]; [|done]. rewrite map_size_empty in Hn. done.
Qed.

Lemma signal_not_a_list_witness :
  predict (VDict {[ "signal" := VStr "abc" ]})
  = match py_len (VStr "abc") with
    | Ok n =>
        if n <? 100 then Ok (invalid_input "Insufficient signal data")
        else Raise TypeError
    | Raise _ => Raise TypeError
    end.
Proof.
  apply (signal_not_a_list {[ "signal" := VStr "abc" ]} (VStr "abc"));
    [reflexivity | discriminate].
Defined.

(** X10. A signal of at least 100 items one of which is not a number never gets
    a response: the sum raises. *)
Theorem signal_with_non_number (d : gmap string value) (l : list value) :
  d !! "signal" = Some (VList l) ->
  (100 <= length l)%nat ->
  (exists v : value, v ∈ l /\ as_num v = None) ->
  exists e : exn,
    predict (VDict d) = Raise e /\ (e = TypeError \/ e = OverflowError).
Proof.
  intros Hsig Hlen Hbad.
  destruct (sum_non_number l (Ok (NInt 0)) Hbad) as (e & Hsum & He); [done|].
  exists e. split; [|done].
  unfold predict, predict_readings, dict_get. rewrite Hsig. simpl default.
  simpl py_len. cbn [mbind result_bind].
  rewrite (proj2 (Z.leb_le 100 _)) by lia.
  unfold mean_signal. simpl py_sum. by rewrite Hsum.
Qed.

Lemma signal_with_non_number_witness :
  exists e : exn,
    predict (VDict (constant_signal 100 (VStr "128"))) = Raise e
    /\ (e = TypeError \/ e = OverflowError).
Proof.
  apply (signal_with_non_number (constant_signal 100 (VStr "128"))
           (replicate 100 (VStr "128"))).
  - reflexivity.
  - simpl. lia.
  - exists (VStr "128"). split; [|reflexivity]. by left.
Defined.

(** X11. A legacy request with a reading that is present, not null and not a
    number raises [TypeError]. *)
Theorem legacy_non_number (d : gmap string value) (vs vd : value) :
  d !! "signal" = None ->
  d !! "systolic" = Some vs ->
  d !! "diastolic" = Some vd ->
  is_none vs = false ->
  is_none vd = false ->
  as_num vs = None \/ as_num vd = None ->
  predict (VDict d) = Raise TypeError.
Proof.
  intros Hsig Hs Hd Hvs Hvd Hbad.
  unfold predict, predict_readings, dict_get. rewrite Hsig, Hs, Hd. simpl default.
  rewrite Hvs, Hvd. cbn [orb mbind result_bind]. unfold predict_respond.
  destruct (as_num vs) as [s|] eqn:Hns.
  - destruct Hbad as [?|Hnd]; [done|].
    rewrite (proj2 (determine_bp_category_non_number vs vd) s Hns Hnd).
    destruct (in_band s 130 140); [|done]. cbn [mbind result_bind].
    destruct vs; try discriminate Hns; simpl; by destruct vd.
  - by rewrite (proj1 (determine_bp_category_non_number vs vd) Hns).
Qed.

Lemma legacy_non_number_witness :
  predict (VDict {[ "systolic" := VInt 135; "diastolic" := VStr "85" ]})
  = Raise TypeError.
Proof.
  apply (legacy_non_number {[ "systolic" := VInt 135; "diastolic" := VStr "85" ]}
           (VInt 135) (VStr "85")); try reflexivity.
  by right.
Defined.

(** ** The reported readings *)

Section Rounding.

Lemma div_pow2_half_even_bounds (n k lo hi : Z) :
  0 < k -> lo * 2 ^ k < n -> n < hi * 2 ^ k ->
  lo <= Float.div_pow2_half_even n k <= hi.
Proof.
  intros Hk Hlo Hhi. unfold Float.div_pow2_half_even.
  assert (0 < 2 ^ k) as Hp by (apply Z.pow_pos_nonneg; lia).
  assert (lo <= n / 2 ^ k) by (apply Z.div_le_lower_bound; lia).
  assert (n / 2 ^ k < hi) by (apply Z.div_lt_upper_bound; lia).
  destruct (2 * (n mod 2 ^ k) ?= 2 ^ k); [destruct (Z.even _)| |]; lia.
Qed.

(** Rounding a float strictly between two positive integers gives the
    float nearest to some number of tenths between them. *)
Lemma round1_tenths (f : spec_float) (lo hi : Z) :
  0 < lo ->
  Float.compare_int f lo = Some Gt ->
  Float.compare_int f hi = Some Lt ->
  exists q : Z, 10 * lo <= q <= 10 * hi /\ Float.round1 f = Float.div_int q 10.
Proof.
  intros Hpos Hlo Hhi.
  destruct f as [s|s| |s m e]; unfold Float.compare_int in Hlo, Hhi; try done.
  - destruct lo; [lia | discriminate Hlo | lia].
  - destruct s; done.
  - injection Hlo as Hlo. injection Hhi as Hhi. unfold Float.round1.
    pose proof (Pos2Z.neg_is_neg m). pose proof (Pos2Z.is_pos m).
    destruct (0 <=? e) eqn:He.
    + apply Z.leb_le in He.
      assert (0 < 2 ^ e) by (apply Z.pow_pos_nonneg; lia).
      destruct s; cbv beta iota zeta in Hlo, Hhi.
      all: apply Z.compare_gt_iff in Hlo.
      all: pose proof (proj1 (Z.compare_lt_iff _ _) Hhi) as Hhi'.
      1: exfalso; nia.
      destruct (10 * Z.pos m * 2 ^ e) as [|q|q] eqn:Hq;
        [exfalso; nia| |exfalso; nia].
      exists (Z.pos q). split; [|done]. rewrite <- Hq, <- Z.mul_assoc. lia.
    + apply Z.leb_gt in He.
      assert (0 < 2 ^ (- e)) by (apply Z.pow_pos_nonneg; lia).
      destruct s; cbv beta iota zeta in Hlo, Hhi.
      all: apply Z.compare_gt_iff in Hlo.
      all: pose proof (proj1 (Z.compare_lt_iff _ _) Hhi) as Hhi'.
      1: exfalso; nia.
      pose proof (div_pow2_half_even_bounds (10 * Z.pos m) (- e) (10 * lo) (10 * hi))
        as Hb.
      destruct (Float.div_pow2_half_even (10 * Z.pos m) (- e)) as [|q|q] eqn:Hq;
        [exfalso; lia| |exfalso; lia].
      exists (Z.pos q). split; [lia|done].
Qed.

Lemma tenths_in_range_spec (lo hi q : Z) :
  tenths_in_range lo hi = true ->
  10 * lo <= q <= 10 * hi ->
  in_range (NFloat (Float.div_int q 10)) lo hi = true.
Proof.
  unfold tenths_in_range. rewrite forallb_forall. intros Hall Hq.
  apply Hall. apply list_elem_of_In, elem_of_seqZ. lia.
Qed.

Lemma one_decimal_in_range (lo hi : Z) (v : value) :
  lo <= hi ->
  tenths_in_range lo hi = true ->
  one_decimal lo hi v ->
  exists a : num, as_num v = Some a /\ in_range a lo hi = true.
Proof.
  intros Hle Hall [->|[->|(q & Hq & ->)]].
  - exists (NInt lo). split; [done|]. unfold in_range, num_leb. simpl.
    rewrite Z.compare_refl. by destruct (Z.compare_spec lo hi); try lia.
  - exists (NInt hi). split; [done|]. unfold in_range, num_leb. simpl.
    rewrite Z.compare_refl. by destruct (Z.compare_spec lo hi); try lia.
  - eexists. split; [done|]. by apply tenths_in_range_spec.
Qed.

(** The clamp of a float estimate, rounded for the response. *)
Lemma round_clamp (f : spec_float) (lo hi : Z) :
  0 < lo ->
  exists r : value,
    py_round1 (of_num (clamp (NFloat f) (NInt lo) (NInt hi))) = Ok r
    /\ one_decimal lo hi r.
Proof.
  intros Hpos. unfold clamp, num_gtb, num_ltb. simpl num_compare.
  destruct (Float.compare_int f lo) as [[]|] eqn:Hlo;
    try (exists (VInt lo); split; [done|by left]).
  destruct (Float.compare_int f hi) as [[]|] eqn:Hhi;
    try (exists (VInt hi); split; [done|by right; left]).
  destruct (round1_tenths f lo hi Hpos Hlo Hhi) as (q & Hq & Hr).
  exists (VFloat (Float.div_int q 10)). split; [simpl; by rewrite Hr|].
  right; right. eauto.
Qed.

Lemma clamp_ordered (x : num) (lo hi : Z) :
  ordered (clamp x (NInt lo) (NInt hi)) = true.
Proof.
  unfold clamp, num_gtb.
  destruct (num_compare x (NInt lo)) as [[]|] eqn:Hc; try done.
  destruct (num_ltb x (NInt hi)); [|done].
  destruct (ordered x) eqn:Ho; [done|].
  by rewrite (num_compare_unordered x lo Ho) in Hc.
Qed.

(** What a signal request with a computed mean is answered. *)
Lemma predict_signal_response (d : gmap string value) (signal : value)
    (n : Z) (mean : num) :
  d !! "signal" = Some signal ->
  py_len signal = Ok n ->
  100 <= n ->
  mean_signal signal = Ok mean ->
  exists (rs rd : value) (c : string),
    predict (VDict d) = Ok (prediction rs rd c)
    /\ one_decimal 90 160 rs /\ one_decimal 60 100 rd
    /\ (c = "Normal" \/ c = "Elevated" \/ c = "Hypertension Stage 1"
        \/ c = "Hypertension Stage 2").
Proof.
  intros Hsig Hlen Hn Hmean.
  destruct (mean_signal_float signal mean Hmean) as [f ->].
  pose proof (predict_readings_signal d signal n f Hsig Hlen Hn Hmean) as Hr.
  unfold predict. rewrite Hr. cbn [mbind result_bind]. unfold predict_respond.
  match type of Hr with _ = Ok (inr (of_num ?s, of_num ?dd)) =>
    rewrite (determine_bp_category_num _ _ s dd (as_num_of_num _) (as_num_of_num _));
    pose proof (category_of_ordered s dd (clamp_ordered _ _ _) (clamp_ordered _ _ _))
      as Hc
  end.
  cbn [mbind result_bind].
  match goal with |- context [py_round1 (of_num (clamp (NFloat ?x) _ (NInt 160)))] =>
    destruct (round_clamp x 90 160) as (rs & -> & Hrs); [lia|] end.
  match goal with |- context [py_round1 (of_num (clamp (NFloat ?x) _ (NInt 100)))] =>
    destruct (round_clamp x 60 100) as (rd & -> & Hrd); [lia|] end.
  cbn [mbind result_bind]. eauto 10.
Qed.

End Rounding.

(** X12. The readings reported for a signal request have one decimal and stay
    within the clamp bounds after rounding: systolic is 90, 160 or the
    float nearest to [q / 10] for an integer [900 <= q <= 1600], diastolic
    is 60, 100 or the float nearest to [q / 10] for [600 <= q <= 1000];
    hence [90 <= systolic <= 160] and [60 <= diastolic <= 100]. *)
Theorem reported_signal_readings (d : gmap string value) (signal : value)
    (n : Z) (mean : num) :
  d !! "signal" = Some signal ->
  py_len signal = Ok n ->
  100 <= n ->
  mean_signal signal = Ok mean ->
  exists (systolic diastolic : value) (category : string) (s dd : num),
    predict (VDict d) = Ok (prediction systolic diastolic category)
    /\ one_decimal 90 160 systolic /\ one_decimal 60 100 diastolic
    /\ as_num systolic = Some s /\ in_range s 90 160 = true
    /\ as_num diastolic = Some dd /\ in_range dd 60 100 = true.
Proof.
  intros Hsig Hlen Hn Hmean.
  destruct (predict_signal_response d signal n mean Hsig Hlen Hn Hmean)
    as (rs & rd & c & Hp & Hrs & Hrd & _).
  destruct (one_decimal_in_range 90 160 rs) as (s & Hs & Hsr);
    [lia | by vm_compute | done |].
  destruct (one_decimal_in_range 60 100 rd) as (dd & Hdd & Hdr);
    [lia | by vm_compute | done |].
  exists rs, rd, c, s, dd. done.
Qed.

Lemma reported_signal_readings_witness :
  exists (systolic diastolic : value) (category : string) (s dd : num),
    predict (VDict (constant_signal 100 (VInt 131)))
    = Ok (prediction systolic diastolic category)
    /\ one_decimal 90 160 systolic /\ one_decimal 60 100 diastolic
    /\ as_num systolic = Some s /\ in_range s 90 160 = true
    /\ as_num diastolic = Some dd /\ in_range dd 60 100 = true.
Proof.
  apply (reported_signal_readings (constant_signal 100 (VInt 131))
           (VList (replicate 100 (VInt 131))) 100 (NFloat (Float.of_int 131)));
    [reflexivity | reflexivity | lia | vm_compute; reflexivity].
Defined.

(** X13. A signal request whose mean is computed is answered 200 with one
    of the four named categories, never Unknown. *)
Theorem signal_category_known (d : gmap string value) (signal : value)
    (n : Z) (mean : num) :
  d !! "signal" = Some signal ->
  py_len signal = Ok n ->
  100 <= n ->
  mean_signal signal = Ok mean ->
  exists r : response,
    predict (VDict d) = Ok r
    /\ status r = 200
    /\ (body r !! "category" = Some (VStr "Normal")
        \/ body r !! "category" = Some (VStr "Elevated")
        \/ body r !! "category" = Some (VStr "Hypertension Stage 1")
        \/ body r !! "category" = Some (VStr "Hypertension Stage 2")).
Proof.
  intros Hsig Hlen Hn Hmean.
  destruct (predict_signal_response d signal n mean Hsig Hlen Hn Hmean)
    as (rs & rd & c & Hp & _ & _ & Hc).
  exists (prediction rs rd c). split; [done|]. split; [done|].
  assert (body (prediction rs rd c) !! "category" = Some (VStr c)) as ->.
  { unfold prediction. simpl. by simplify_map_eq. }
  destruct Hc as [->|[->|[->| ->]]]; auto.
Qed.

Lemma signal_category_known_witness :
  exists r : response,
    predict (VDict (constant_signal 100 (VFloat S754_nan))) = Ok r
    /\ status r = 200
    /\ (body r !! "category" = Some (VStr "Normal")
        \/ body r !! "category" = Some (VStr "Elevated")
        \/ body r !! "category" = Some (VStr "Hypertension Stage 1")
        \/ body r !! "category" = Some (VStr "Hypertension Stage 2")).
Proof.
  apply (signal_category_known (constant_signal 100 (VFloat S754_nan))
           (VList (replicate 100 (VFloat S754_nan))) 100 (NFloat S754_nan));
    [reflexivity | reflexivity | lia | vm_compute; reflexivity].
Defined.

(** ** Sums and means *)

Section Sums.

(** A NaN met by [sum] stays to the end of a list of floats. *)
Lemma sum_floats_nan (l : list value) (acc : spec_float) :
  Forall (fun v => is_float v = true) l ->
  acc = S754_nan \/ VFloat S754_nan ∈ l ->
  foldl sum_step (Ok (NFloat acc)) l = Ok (NFloat S754_nan).
Proof.
  intros Hl. revert acc.
  induction Hl as [|v l Hv _ IH]; intros acc Hnan.
  - destruct Hnan as [->|Hin]; [done|]. by apply elem_of_nil in Hin.
  - destruct v as [| | |g| | |]; try discriminate Hv.
    change (foldl sum_step (Ok (NFloat acc)) (VFloat g :: l))
      with (foldl sum_step (Ok (NFloat (Float.add acc g))) l).
    apply IH. destruct Hnan as [->|Hin].
    + by left.
    + apply elem_of_cons in Hin as [Heq|Hin]; [|by right].
      left. injection Heq as <-. by destruct acc.
Qed.

(** Integers are summed exactly. *)
Lemma sum_ints (zs : list Z) (acc : Z) :
  foldl sum_step (Ok (NInt acc)) (VInt <$> zs) = Ok (NInt (acc + foldr Z.add 0 zs)).
Proof.
  revert acc. induction zs as [|z zs IH]; intros acc; simpl.
  - by rewrite Z.add_0_r.
  - rewrite IH. do 2 f_equal. lia.
Qed.

Lemma foldr_add_permutation (zs1 zs2 : list Z) :
  zs1 ≡ₚ zs2 -> foldr Z.add 0 zs1 = foldr Z.add 0 zs2.
Proof. induction 1; simpl; lia. Qed.

End Sums.

(** X14. The mean of a signal of integers is computed without accumulated
    rounding: it is the quotient of the exact sum by the length, rounded
    once to the nearest float, and an [OverflowError] when that quotient is
    beyond the largest float. *)
Theorem mean_of_integers (zs : list Z) :
  zs <> [] ->
  mean_signal (int_signal zs)
  = let q := Float.div_int (foldr Z.add 0 zs) (Z.of_nat (length zs)) in
    if Float.is_infinite q then Raise OverflowError else Ok (NFloat q).
Proof.
  intros Hne. unfold mean_signal, int_signal. simpl py_sum. simpl py_len.
  rewrite sum_ints. cbn [mbind result_bind]. rewrite length_fmap, Z.add_0_l.
  unfold num_truediv.
  destruct (Z.of_nat (length zs) =? 0) eqn:Hz; [|done].
  apply Z.eqb_eq in Hz. destruct zs; [done|simpl in Hz; lia].
Qed.

Lemma mean_of_integers_witness :
  mean_signal (int_signal [127; 128; 130])
  = let q := Float.div_int (foldr Z.add 0 [127; 128; 130])
               (Z.of_nat (length [127; 128; 130])) in
    if Float.is_infinite q then Raise OverflowError else Ok (NFloat q).
Proof. apply (mean_of_integers [127; 128; 130]). discriminate. Defined.

(** X15. For a signal of integers the outcome does not depend on the order of
    the samples. *)
Theorem integer_signal_order (d1 d2 : gmap string value) (zs1 zs2 : list Z) :
  d1 !! "signal" = Some (int_signal zs1) ->
  d2 !! "signal" = Some (int_signal zs2) ->
  zs1 ≡ₚ zs2 ->
  predict (VDict d1) = predict (VDict d2).
Proof.
  intros H1 H2 Hp.
  assert (py_len (int_signal zs1) = py_len (int_signal zs2)) as Hlen.
  { unfold int_signal. simpl. by rewrite !length_fmap, Hp. }
  assert (mean_signal (int_signal zs1) = mean_signal (int_signal zs2)) as Hmean.
  { unfold mean_signal. rewrite Hlen. unfold int_signal. simpl py_sum.
    by rewrite !sum_ints, (foldr_add_permutation zs1 zs2 Hp). }
  unfold predict, predict_readings, dict_get. rewrite H1, H2. simpl default.
  by rewrite Hlen, Hmean.
Qed.

Lemma integer_signal_order_witness :
  predict (VDict {[ "signal" := int_signal (replicate 99 128 ++ [255]) ]})
  = predict (VDict {[ "signal" := int_signal (255 :: replicate 99 128) ]}).
Proof.
  apply (integer_signal_order _ _ (replicate 99 128 ++ [255]) (255 :: replicate 99 128));
    [reflexivity | reflexivity |].
  symmetry. apply Permutation_cons_append.
Defined.

(** X17. A NaN among the samples of a float signal is not reported: the
    response is 200 with the lower bounds 90 and 60 and category Normal. *)
Theorem nan_sample_reads_normal (d : gmap string value) (l : list value) :
  d !! "signal" = Some (VList l) ->
  Forall (fun v => is_float v = true) l ->
  (100 <= length l)%nat ->
  Z.of_nat (length l) < 2 ^ 53 ->
  VFloat S754_nan ∈ l ->
  predict (VDict d) = Ok (prediction (VInt 90) (VInt 60) "Normal").
Proof.
  intros Hsig Hl Hlen Hbound Hnan.
  assert (mean_signal (VList l) = Ok (NFloat S754_nan)) as Hmean.
  { destruct (mean_signal_floats l Hl) as [f Hmean]; [lia|done|].
    rewrite Hmean. revert Hmean. unfold mean_signal. simpl py_sum. simpl py_len.
    destruct Hl as [|v l Hv Hl]; [by apply elem_of_nil in Hnan|].
    destruct v as [| | |g| | |]; try discriminate Hv.
    change (foldl sum_step (Ok (NInt 0)) (VFloat g :: l))
      with (foldl sum_step (Ok (NFloat (Float.add (S754_zero false) g))) l).
    rewrite (sum_floats_nan l _ Hl).
    - cbn [mbind result_bind]. unfold num_truediv, to_float. cbn [mbind result_bind].
      destruct (Float.is_infinite _); [done|]. cbn [mbind result_bind].
      destruct (Float.is_zero _); [done|]. intros ?; by simplify_eq.
    - apply elem_of_cons in Hnan as [Heq|Hin]; [|by right].
      left. by injection Heq as <-. }
  unfold predict.
  rewrite (predict_readings_signal d (VList l) (Z.of_nat (length l)) S754_nan)
    by (done || lia).
  vm_compute. reflexivity.
Qed.

Lemma nan_sample_reads_normal_witness :
  predict (VDict {[ "signal" := VList (VFloat S754_nan
                                        :: replicate 99 (VFloat (Float.of_int 200))) ]})
  = Ok (prediction (VInt 90) (VInt 60) "Normal").
Proof.
  apply (nan_sample_reads_normal _
           (VFloat S754_nan :: replicate 99 (VFloat (Float.of_int 200)))).
  - reflexivity.
  - apply Forall_cons. split; [reflexivity|]. apply Forall_replicate. reflexivity.
  - simpl. lia.
  - simpl. lia.
  - by left.
Defined.

(** X18. A mean that is not finite saturates the readings: NaN and minus
    infinity give the lower bounds 90 and 60 with category Normal, plus
    infinity the upper bounds 160 and 100 with Hypertension Stage 2. *)
Theorem non_finite_mean_saturates (d : gmap string value) (signal : value)
    (n : Z) (f : spec_float) :
  d !! "signal" = Some signal ->
  py_len signal = Ok n ->
  100 <= n ->
  mean_signal signal = Ok (NFloat f) ->
  Float.is_nan f || Float.is_infinite f = true ->
  predict (VDict d)
  = Ok (match f with
        | S754_infinity false => prediction (VInt 160) (VInt 100) "Hypertension Stage 2"
        | _ => prediction (VInt 90) (VInt 60) "Normal"
        end).
Proof.
  intros Hsig Hlen Hn Hmean Hf. unfold predict.
  rewrite (predict_readings_signal d signal n f Hsig Hlen Hn Hmean).
  destruct f as [s|[]| |s m e]; try discriminate Hf; vm_compute; reflexivity.
Qed.

Lemma non_finite_mean_saturates_witness :
  predict (VDict (constant_signal 100 (VFloat (S754_infinity false))))
  = Ok (prediction (VInt 160) (VInt 100) "Hypertension Stage 2").
Proof.
  apply (non_finite_mean_saturates
           (constant_signal 100 (VFloat (S754_infinity false)))
           (VList (replicate 100 (VFloat (S754_infinity false)))) 100
           (S754_infinity false));
    [reflexivity | reflexivity | lia | vm_compute; reflexivity | reflexivity].
Defined.

(** X19. The category is computed before the readings are rounded, so it need
    not be the category of the readings that the response reports: 90
    samples of 128 and 10 of 127 are answered systolic 120.0, diastolic 80.0
    and Normal, while 120.0 and 80.0 themselves classify as Hypertension
    Stage 1. *)
Theorem category_not_of_reported_readings :
  exists (d : gmap string value) (systolic diastolic : value) (category : string),
    predict (VDict d) = Ok (prediction systolic diastolic category)
    /\ exists other : string,
         determine_bp_category systolic diastolic = Ok other /\ other <> category.
Proof.
  exists {[ "signal" := int_signal (replicate 90 128 ++ replicate 10 127) ]},
    (VFloat (Float.of_int 120)), (VFloat (Float.of_int 80)), "Normal".
  split; [vm_compute; reflexivity|].
  exists "Hypertension Stage 1". split; [vm_compute; reflexivity|discriminate].
Qed.

(** ** Signals that are always answered *)

Section RoundingRange.

Lemma Zdigits2_upper (m k : Z) : 0 <= k -> 0 <= m < 2 ^ k -> Zdigits2 m <= k.
Proof.
  intros Hk [Hm Hlt]. destruct m as [|p|p]; simpl; [lia| |lia].
  pose proof (digits2_pos_bounds p) as [Hlo _].
  destruct (Z.le_gt_cases (Z.pos (digits2_pos p)) k) as [|Hgt]; [done|].
  assert (2 ^ k <= 2 ^ (Z.pos (digits2_pos p) - 1)) by (apply Z.pow_le_mono_r; lia).
  lia.
Qed.

Lemma Zdigits2_lt (m : Z) : 0 <= m -> m < 2 ^ Zdigits2 m.
Proof.
  intros Hm. destruct m as [|p|p]; simpl; [lia| |lia].
  apply digits2_pos_bounds.
Qed.

Lemma Zdigits2_nonneg (m : Z) : 0 <= Zdigits2 m.
Proof. destruct m; simpl; lia. Qed.

Lemma shr_1_m (mrs : shr_record) :
  0 <= shr_m mrs -> shr_m (shr_1 mrs) = shr_m mrs / 2.
Proof.
  destruct mrs as [m r s]. cbn [shr_m]. intros Hm.
  destruct m as [|[p|p|]|p]; cbn [shr_1 shr_m]; try lia; try reflexivity.
  - apply (Z.div_unique _ _ _ 1); lia.
  - apply (Z.div_unique _ _ _ 0); lia.
Qed.

Lemma iter_shr_1_m (p : positive) (mrs : shr_record) :
  0 <= shr_m mrs ->
  shr_m (SpecFloat.iter_pos shr_1 p mrs) = shr_m mrs / 2 ^ Z.pos p.
Proof.
  revert mrs. induction p as [p IH|p IH|]; intros mrs Hm; simpl SpecFloat.iter_pos.
  - assert (0 <= shr_m (shr_1 mrs))
      by (rewrite shr_1_m by done; apply Z.div_pos; lia).
    assert (0 < 2 ^ Z.pos p) by (apply Z.pow_pos_nonneg; lia).
    rewrite IH; [|rewrite IH by done; apply Z.div_pos; lia].
    rewrite IH, shr_1_m by done.
    rewrite !Z.div_div by lia. f_equal.
    replace (Z.pos p~1) with (Z.pos p + Z.pos p + 1) by lia.
    rewrite !Z.pow_add_r, Z.pow_1_r by lia. ring.
  - assert (0 < 2 ^ Z.pos p) by (apply Z.pow_pos_nonneg; lia).
    rewrite IH; [|rewrite IH by done; apply Z.div_pos; lia].
    rewrite IH by done.
    rewrite !Z.div_div by lia. f_equal.
    replace (Z.pos p~0) with (Z.pos p + Z.pos p) by lia.
    rewrite !Z.pow_add_r by lia. ring.
  - rewrite shr_1_m by done. f_equal.
Qed.

Lemma shr_m_of_loc (m : Z) (l : location) : shr_m (shr_record_of_loc m l) = m.
Proof. by destruct l as [|[]]. Qed.

(** The shift that brings a mantissa to its rounding exponent leaves at
    most 53 bits, and an exponent between -1074 and the given bound. *)
Lemma shr_fexp_bounds (m e : Z) (l : location) (mrs : shr_record) (e' b : Z) :
  0 <= m -> Zdigits2 m + e <= b + 53 -> e <= b -> -1074 <= b ->
  shr_fexp Float.prec Float.emax m e l = (mrs, e') ->
  0 <= shr_m mrs < 2 ^ 53 /\ -1074 <= e' <= b /\ e <= e'
  /\ e' <= Z.max e (Z.max (Zdigits2 m + e - 53) (-1074)).
Proof.
  intros Hm Hd He Hb. unfold shr_fexp, shr, fexp, emin, Float.prec, Float.emax.
  pose proof (Zdigits2_lt m Hm) as Hlt.
  pose proof (Zdigits2_nonneg m) as Hdn.
  destruct (Z.max (Zdigits2 m + e - 53) (3 - 1024 - 53) - e) as [|p|p] eqn:Hn;
    intros ?; simplify_eq.
  - rewrite shr_m_of_loc.
    assert (2 ^ Zdigits2 m <= 2 ^ 53) by (apply Z.pow_le_mono_r; lia). lia.
  - rewrite iter_shr_1_m, shr_m_of_loc by (by rewrite shr_m_of_loc).
    assert (0 < 2 ^ Z.pos p) by (apply Z.pow_pos_nonneg; lia).
    split; [|lia]. split; [apply Z.div_pos; lia|].
    apply Z.div_lt_upper_bound; [lia|].
    rewrite <- Z.pow_add_r by lia.
    assert (2 ^ Zdigits2 m <= 2 ^ (Z.pos p + 53)) by (apply Z.pow_le_mono_r; lia).
    lia.
  - rewrite shr_m_of_loc.
    assert (2 ^ Zdigits2 m <= 2 ^ 53) by (apply Z.pow_le_mono_r; lia). lia.
Qed.

Lemma round_nearest_even_bounds (m : Z) (l : location) :
  m <= round_nearest_even m l <= m + 1.
Proof. destruct l as [|[]]; simpl; [lia|destruct (Z.even m); lia|lia|lia]. Qed.

(** Rounding a value below [2^1023] never gives an infinity. *)
Lemma binary_round_aux_finite (s : bool) (m e : Z) (l : location) :
  0 <= m -> Zdigits2 m + e <= 1023 -> e <= 970 ->
  Float.is_infinite (binary_round_aux Float.prec Float.emax s m e l) = false.
Proof.
  intros Hm Hd He. unfold binary_round_aux.
  destruct (shr_fexp Float.prec Float.emax m e l) as [mrs' e'] eqn:H1.
  destruct (shr_fexp_bounds m e l mrs' e' 970 Hm) as (Hm' & He' & _); [lia..|done|].
  pose proof (round_nearest_even_bounds (shr_m mrs') (loc_of_shr_record mrs')) as Hr.
  set (m1 := round_nearest_even (shr_m mrs') (loc_of_shr_record mrs')) in *.
  destruct (shr_fexp Float.prec Float.emax m1 e' loc_Exact) as [mrs'' e''] eqn:H2.
  assert (Zdigits2 m1 <= 54) as Hd1.
  { apply Zdigits2_upper; [lia|]. change (2 ^ 54) with (2 * 2 ^ 53). lia. }
  destruct (shr_fexp_bounds m1 e' loc_Exact mrs'' e'' 971) as (_ & He'' & _);
    [lia..|done|].
  destruct (shr_m mrs''); [done| |done].
  unfold Float.prec, Float.emax.
  by rewrite (proj2 (Z.leb_le e'' (1024 - 53))) by lia.
Qed.

End RoundingRange.

Section Totality2.

Lemma of_int_finite (z : Z) :
  Z.abs z < 2 ^ 1023 -> Float.is_infinite (Float.of_int z) = false.
Proof.
  intros Hz. unfold Float.of_int, binary_normalize.
  assert (forall (s : bool) (m : positive),
            Z.pos m < 2 ^ 1023 ->
            Float.is_infinite (binary_round Float.prec Float.emax s m 0) = false) as Hr.
  { intros s m Hm. unfold binary_round, shl_align, fexp, emin, Float.prec, Float.emax.
    assert (Z.pos (digits2_pos m) <= 1023) as Hd
      by (apply (Zdigits2_upper (Z.pos m)); lia).
    destruct (Z.max (Z.pos (digits2_pos m) + 0 - 53) (3 - 1024 - 53) - 0)
      as [|p|p] eqn:Hn.
    - apply binary_round_aux_finite; simpl; lia.
    - apply binary_round_aux_finite; simpl; lia.
    - apply binary_round_aux_finite; [lia| |lia].
      simpl Zdigits2. rewrite digits2_pos_iter_xO. lia. }
  destruct z as [|m|m]; [done|apply Hr; lia|apply Hr; lia].
Qed.

Lemma div_int_finite (x n : Z) :
  Z.abs x < 2 ^ 1023 -> 0 < n -> Float.is_infinite (Float.div_int x n) = false.
Proof.
  intros Hx Hn. unfold Float.div_int, Float.div.
  destruct n as [|pn|pn]; try lia.
  assert (forall (s : bool) (px : positive),
            Z.pos px < 2 ^ 1023 ->
            Float.is_infinite
              (SFdiv Float.prec Float.emax (S754_finite s px 0) (S754_finite false pn 0))
            = false) as Hd.
  { intros s px Hpx. unfold SFdiv, SFdiv_core_binary.
    set (e' := Z.min _ _).
    assert (e' <= 0) as He' by (unfold e'; lia).
    set (m' := match 0 - 0 - e' with Z.pos _ => _ | 0 => _ | Z.neg _ => _ end).
    assert (m' = Z.pos px * 2 ^ (- e')) as Hm'.
    { unfold m'. destruct (0 - 0 - e') as [|p|p] eqn:Hs.
      - replace (- e') with 0 by lia. simpl. lia.
      - rewrite Z.shiftl_mul_pow2 by lia. f_equal. f_equal. lia.
      - lia. }
    assert (0 < 2 ^ (- e')) by (apply Z.pow_pos_nonneg; lia).
    destruct (Z.div_eucl m' (Z.pos pn)) as [q r] eqn:Hqr.
    assert (q = m' / Z.pos pn) as Hq by (unfold Z.div; by rewrite Hqr).
    assert (0 <= q) by (rewrite Hq; apply Z.div_pos; nia).
    assert (q <= m') as Hle by (rewrite Hq; apply Z.div_le_upper_bound; nia).
    apply binary_round_aux_finite; [done| |lia].
    assert (Zdigits2 q <= Zdigits2 (Z.pos px) - e'); [|
      assert (Zdigits2 (Z.pos px) <= 1023) by (apply Zdigits2_upper; lia); lia].
    pose proof (Zdigits2_nonneg (Z.pos px)).
    apply Zdigits2_upper; [lia|]. split; [done|].
    replace (Zdigits2 (Z.pos px) - e') with (Zdigits2 (Z.pos px) + - e') by lia.
    rewrite Z.pow_add_r by lia.
    pose proof (Zdigits2_lt (Z.pos px)). nia. }
  destruct x as [|px|px]; [done|apply Hd; lia|apply Hd; lia].
Qed.

Lemma within_to_float (b : Z) (a : num) :
  b < 2 ^ 1023 -> within b a -> exists f : spec_float, to_float a = Ok f.
Proof.
  intros Hb Ha. destruct a as [z|f]; [|eauto]. simpl in Ha. unfold to_float.
  rewrite of_int_finite by lia. eauto.
Qed.

Lemma plain_number_within (v : value) :
  plain_number v = true -> exists a : num, as_num v = Some a /\ within (2 ^ 64) a.
Proof.
  destruct v as [|b|z|f| | |]; try done; intros Hv; simpl.
  - exists (NInt (Z.b2z b)). split; [done|]. simpl. destruct b; simpl; lia.
  - exists (NInt z). split; [done|]. simpl. apply Z.ltb_lt in Hv. lia.
  - by exists (NFloat f).
Qed.

(** Adding a plain number to an accumulator within a bound raises nothing
    and stays within the bound plus [2^64]. *)
Lemma sum_step_within (b : Z) (acc : num) (v : value) :
  0 <= b -> b + 2 ^ 64 < 2 ^ 1023 ->
  within b acc -> plain_number v = true ->
  exists acc' : num, sum_step (Ok acc) v = Ok acc' /\ within (b + 2 ^ 64) acc'.
Proof.
  intros Hb0 Hb Hacc (a & Ha & Hwa)%plain_number_within.
  unfold sum_step. cbn [mbind result_bind]. rewrite Ha.
  destruct acc as [x|f], a as [y|g]; simpl in Hacc, Hwa.
  - exists (NInt (x + y)). split; [done|]. simpl. lia.
  - destruct (within_to_float b (NInt x)) as [fx Hfx]; [lia|done|].
    unfold num_add. rewrite Hfx. by eexists.
  - destruct (within_to_float (2 ^ 64) (NInt y)) as [fy Hfy]; [lia|done|].
    unfold num_add. cbn [to_float mbind result_bind].
    unfold to_float in Hfy. destruct (Float.is_infinite (Float.of_int y)); [done|].
    by eexists.
  - by eexists.
Qed.

Lemma sum_within (l : list value) (b : Z) (acc : num) :
  0 <= b -> b + Z.of_nat (length l) * 2 ^ 64 < 2 ^ 1023 ->
  within b acc ->
  Forall (fun v => plain_number v = true) l ->
  exists total : num,
    foldl sum_step (Ok acc) l = Ok total
    /\ within (b + Z.of_nat (length l) * 2 ^ 64) total.
Proof.
  intros Hb0 Hb Hacc Hl. revert b acc Hb0 Hb Hacc.
  induction Hl as [|v l Hv _ IH]; intros b acc Hb0 Hb Hacc.
  - exists acc. split; [done|]. simpl. by rewrite Z.add_0_r.
  - rewrite length_cons, Nat2Z.inj_succ in Hb |- *.
    destruct (sum_step_within b acc v) as (acc' & Hstep & Hacc'); [lia..|done|done|].
    change (foldl sum_step (Ok acc) (v :: l))
      with (foldl sum_step (sum_step (Ok acc) v) l).
    rewrite Hstep.
    destruct (IH (b + 2 ^ 64) acc') as (total & Htotal & Hw); [lia|lia|done|].
    exists total. split; [done|].
    replace (b + Z.succ (Z.of_nat (length l)) * 2 ^ 64)
      with (b + 2 ^ 64 + Z.of_nat (length l) * 2 ^ 64) by lia.
    done.
Qed.

(** The mean of a non-empty list of plain numbers is computed without an
    exception. *)
Lemma mean_signal_plain (l : list value) :
  Forall (fun v => plain_number v = true) l ->
  (0 < length l)%nat ->
  Z.of_nat (length l) < 2 ^ 53 ->
  exists mean : num, mean_signal (VList l) = Ok mean.
Proof.
  intros Hl Hpos Hlen.
  assert (2 ^ 53 * 2 ^ 64 < 2 ^ 1023) as Hbig by (vm_compute; reflexivity).
  assert (0 < 2 ^ 64) by (vm_compute; reflexivity).
  destruct (sum_within l 0 (NInt 0)) as (total & Hsum & Hw); [lia|nia|simpl; lia|done|].
  unfold mean_signal. simpl py_sum. simpl py_len. rewrite Hsum.
  cbn [mbind result_bind].
  destruct (Z.of_nat (length l)) as [|p|p] eqn:Hp; [lia| |lia].
  destruct total as [x|f]; simpl in Hw.
  - unfold num_truediv. simpl (Z.pos p =? 0).
    rewrite div_int_finite by nia. eauto.
  - destruct (of_int_small p Hlen) as (m & e & Hm).
    unfold num_truediv, to_float. cbn [mbind result_bind]. rewrite Hm. simpl. eauto.
Qed.

End Totality2.

(** X16. A signal of at least 100 plain numbers (floats, booleans and integers
    below [2^64] in absolute value) is always answered 200, with readings
    of one decimal inside the clamp bounds: nothing in the handler raises
    on it. *)
Theorem plain_signal_answered (d : gmap string value) (l : list value) :
  d !! "signal" = Some (VList l) ->
  Forall (fun v => plain_number v = true) l ->
  (100 <= length l)%nat ->
  Z.of_nat (length l) < 2 ^ 53 ->
  exists (systolic diastolic : value) (category : string),
    predict (VDict d) = Ok (prediction systolic diastolic category)
    /\ one_decimal 90 160 systolic /\ one_decimal 60 100 diastolic.
Proof.
  intros Hsig Hl Hlen Hbound.
  destruct (mean_signal_plain l Hl) as [mean Hmean]; [lia|done|].
  destruct (predict_signal_response d (VList l) (Z.of_nat (length l)) mean)
    as (rs & rd & c & Hp & Hrs & Hrd & _); [done|done|lia|done|].
  eauto 10.
Qed.

Lemma plain_signal_answered_witness :
  exists (systolic diastolic : value) (category : string),
    predict (VDict {[ "signal" := VList (VFloat (Float.div_int 1279 10)
                                          :: VBool true
                                          :: replicate 98 (VInt 140)) ]})
    = Ok (prediction systolic diastolic category)
    /\ one_decimal 90 160 systolic /\ one_decimal 60 100 diastolic.
Proof.
  apply (plain_signal_answered _
           (VFloat (Float.div_int 1279 10) :: VBool true :: replicate 98 (VInt 140))).
  - reflexivity.
  - apply Forall_cons. split; [reflexivity|].
    apply Forall_cons. split; [reflexivity|].
    apply Forall_replicate. reflexivity.
  - simpl. lia.
  - simpl. lia.
Defined.

(** ** The export endpoint *)

Section Strings.

Lemma string_length_app (a s : string) :
  String.length (a +:+ s) = (String.length a + String.length s)%nat.
Proof. induction a as [|c a IH]; simpl; [done|]. by rewrite IH. Qed.

Lemma string_app_inj_r (s a b : string) : a +:+ s = b +:+ s -> a = b.
Proof.
  revert b. induction a as [|c a IH]; intros [|c' b] Heq; simpl in Heq.
  - done.
  - apply (f_equal String.length) in Heq.
    change (String.length s = S (String.length (b +:+ s))) in Heq.
    rewrite string_length_app in Heq. lia.
  - apply (f_equal String.length) in Heq.
    change (S (String.length (a +:+ s)) = String.length s) in Heq.
    rewrite string_length_app in Heq. lia.
  - injection Heq as -> Heq. f_equal. by apply IH.
Qed.

End Strings.

(** X20. On an object the export handler has one way to fail: it raises
    exactly when the samples field is present and has no length (a number,
    a boolean or null), and the exception is then [TypeError]; nothing else
    in the body can make it fail. *)
Theorem export_failure (d : gmap string value) :
  ((exists e : exn, export_session (VDict d) = Raise e)
   <-> exists samples : value, d !! "samples" = Some samples /\ sized samples = false)
  /\ (forall e : exn, export_session (VDict d) = Raise e -> e = TypeError).
Proof.
  unfold export_session, dict_get.
  destruct (d !! "samples") as [samples|]; simpl default.
  - destruct samples; simpl; (split; [split|intros e ?; by simplify_eq]);
      try (intros [e He]; discriminate He);
      try (intros (v & Hv & Hs); simplify_eq; discriminate Hs);
      eauto.
  - simpl. split; [|done].
    split; [intros [e He]; discriminate He|intros (v & Hv & _); done].
Qed.

(** X21. The printed line identifies the number of samples: two exports that
    print the same line received sample fields of the same length. *)
Theorem export_line_identifies_count (d1 d2 : gmap string value)
    (line : string) (r1 r2 : response) :
  export_session (VDict d1) = Ok (line, r1) ->
  export_session (VDict d2) = Ok (line, r2) ->
  py_len (dict_get d1 "samples" (VList [])) = py_len (dict_get d2 "samples" (VList [])).
Proof.
  unfold export_session.
  destruct (py_len (dict_get d1 _ _)) as [n1|]; [|done].
  destruct (py_len (dict_get d2 _ _)) as [n2|]; [|done].
  cbn [mbind result_bind]. intros H1 H2. simplify_eq.
  f_equal.
  match goal with H : _ +:+ _ = _ +:+ _ |- _ => rename H into Heq end.
  apply string_app_inj_r in Heq.
  by apply (inj pretty) in Heq.
Qed.

Lemma export_line_identifies_count_witness :
  py_len (dict_get {[ "samples" := VList [VInt 1; VInt 2] ]} "samples" (VList []))
  = py_len (dict_get {[ "samples" := VStr "ab" ]} "samples" (VList [])).
Proof.
  apply (export_line_identifies_count
           {[ "samples" := VList [VInt 1; VInt 2] ]} {[ "samples" := VStr "ab" ]}
           "Session exported: 2 samples"
           (Response 200
              {[ "success" := VBool true;
                 "message" := VStr "Session data exported successfully" ]})
           (Response 200
              {[ "success" := VBool true;
                 "message" := VStr "Session data exported successfully" ]}));
    reflexivity.
Defined.
